(** * Secure Agent Builder: the wizard controller and its step components

    A shallow embedding of the front end under [frontend/src]:

    - [types/index.ts]: the payload records;
    - [api/client.ts]: the REST calls, as the constructors of [Call];
    - [pages/AgentBuilder.tsx]: the page state ([Wizard]), the validity
      predicate, the three fetchers, the three submit handlers, the
      step-entry effect and the Back callbacks;
    - [components/steps/*.tsx]: button guards, the tool check boxes and the
      question/answer harness of the review step.

    An [async] handler is split where it awaits: the part that runs inside
    the click (a batch of [setState] calls and at most one REST call) and the
    part that runs when the call settles.  Every client function is awaited by
    exactly one handler, so the call in flight names its continuation. *)

From Stdlib Require Import List String Ascii Bool Arith ZArith NArith QArith Lia.
Import ListNotations.
Close Scope Q_scope.

Set Implicit Arguments.

(** ** JavaScript values *)

(** A JavaScript string is a sequence of UTF-16 code units; [length] counts
    code units. *)
Definition jsstring := list N.

(** A string literal of the source (all of them are ASCII). *)
Definition lit (s : string) : jsstring :=
  map N_of_ascii (list_ascii_of_string s).

(** The empty string literal. *)
Definition emptyLit : jsstring := lit EmptyString.

Definition jsstring_eqb (a b : jsstring) : bool :=
  if list_eq_dec N.eq_dec a b then true else false.

Declare Scope js_scope.
Delimit Scope js_scope with js.
Infix "===" := jsstring_eqb (at level 70, no associativity) : js_scope.
Open Scope js_scope.

(** WhiteSpace and LineTerminator code units, the ones [String.prototype.trim]
    strips. *)
Definition isWhiteSpace (c : N) : bool :=
  ((9 <=? c) && (c <=? 13) || (c =? 32) || (c =? 160) || (c =? 5760)
   || (8192 <=? c) && (c <=? 8202) || (c =? 8232) || (c =? 8233)
   || (c =? 8239) || (c =? 8287) || (c =? 12288) || (c =? 65279))%N.

Fixpoint trimStart (s : jsstring) : jsstring :=
  match s with
  | c :: rest => if isWhiteSpace c then trimStart rest else s
  | [] => []
  end.

Definition trimEnd (s : jsstring) : jsstring := rev (trimStart (rev s)).

Definition trim (s : jsstring) : jsstring := trimEnd (trimStart s).

(** [a ?? b]: the right operand only when the left one is null or
    undefined. *)
Definition nullish {A : Type} (a : option A) (b : A) : A :=
  match a with Some x => x | None => b end.
Infix "??" := nullish (at level 45, left associativity) : js_scope.

(** [a || b] where the left operand is a possibly absent string. *)
Definition orElse (a : option jsstring) (b : jsstring) : jsstring :=
  match a with Some (c :: s) => c :: s | _ => b end.

(** The [number]s the wizard computes with.  Identifiers are the integer keys
    of the backend; the frequency limit is what [Number] reads from a number
    input, a finite decimal. *)
Definition number := Q.

(** JSON values, for the schemas carried by an agent definition. *)
#[warnings="-register-all"]
Inductive Json :=
| JNull
| JBool (b : bool)
| JNumber (n : number)
| JString (s : jsstring)
| JArray (items : list Json)
| JObject (members : list (jsstring * Json)).

(** ** types/index.ts *)

Module Agent.
Record t := mk {
  id : Z; name : jsstring; description : jsstring; purpose : jsstring;
  model : jsstring; created_at : jsstring; updated_at : jsstring }.
End Agent.

Module AgentCreate.
Record t := mk {
  name : jsstring; description : jsstring; purpose : jsstring;
  model : jsstring }.
End AgentCreate.

Module Tool.
Record t := mk {
  id : Z; name : jsstring; description : jsstring;
  input_schema : jsstring; output_schema : jsstring }.
End Tool.

Module Policy.
Record t := mk {
  id : Z; agent_id : Z; frequency_limit : option number;
  require_approval_for_all_tool_calls : bool }.
End Policy.

Module PolicyCreate.
Record t := mk {
  frequency_limit : option number;
  require_approval_for_all_tool_calls : bool }.
End PolicyCreate.

Module AgentDefinitionTool.
Record t := mk {
  id : Z; name : jsstring; description : jsstring;
  input_schema : Json; output_schema : Json }.
End AgentDefinitionTool.

Module AgentDefinitionPolicy.
Record t := mk {
  allowed_tool_ids : list Z; frequency_limit : option number;
  require_approval_for_all_tool_calls : bool }.
End AgentDefinitionPolicy.

Module AgentDefinition.
Record t := mk {
  agent_id : Z; name : jsstring; description : jsstring;
  purpose : jsstring; model : jsstring;
  tools : list AgentDefinitionTool.t; policy : AgentDefinitionPolicy.t }.
End AgentDefinition.

Module AgentQARequest.
Record t := mk { question : jsstring; session_id : option jsstring }.
End AgentQARequest.

Module AgentQAResponse.
Record t := mk {
  question : jsstring; answer : option jsstring;
  session_id : option jsstring }.
End AgentQAResponse.

(** ** api/client.ts *)

(** One constructor per exported client function the wizard calls, with the
    arguments of the call. *)
Inductive Call :=
| createAgent (payload : AgentCreate.t)
| getTools
| setAgentTools (agentId : Z) (toolIds : list Z)
| getAgentTools (agentId : Z)
| setPolicy (agentId : Z) (payload : PolicyCreate.t)
| getDefinition (agentId : Z)
| askAgent (agentId : Z) (payload : AgentQARequest.t).

(** What a rejected promise exposes to the [catch] blocks:
    [err?.response?.data?.detail] and [err?.message], each absent ([None]) or a
    string, as the string cells that receive them require. *)
Record ApiError := mkApiError {
  detail : option jsstring;
  message : option jsstring }.

Inductive Result (A : Type) :=
| Resolved (data : A)
| Rejected (err : ApiError).
Arguments Resolved {A} data.
Arguments Rejected {A} err.

(** A settled call, typed by the endpoint. *)
Inductive Response :=
| AgentResponse (r : Result Agent.t)
| ToolsResponse (r : Result (list Tool.t))
| PolicyResponse (r : Result Policy.t)
| DefinitionResponse (r : Result AgentDefinition.t)
| QAResponse (r : Result AgentQAResponse.t).

(** ** pages/AgentBuilder.tsx *)

Definition models : list jsstring :=
  [lit "gpt-4.1-mini"; lit "gpt-4.1"; lit "gpt-4.1-extended"].

(** [steps]: key and label, in display order. *)
Definition steps : list (jsstring * jsstring) :=
  [ (lit "metadata", lit "Metadata");
    (lit "tools", lit "Tools");
    (lit "policies", lit "Policies");
    (lit "review", lit "Review & Export") ].

(** The [useState] cells of [AgentBuilderPage]. *)
Record Wizard := mkWizard {
  activeStep : jsstring;
  agent : option Agent.t;
  agentDefinition : option AgentDefinition.t;
  availableTools : list Tool.t;
  selectedToolIds : list Z;
  policy : option Policy.t;
  error : jsstring;
  loading : bool;
  metadataForm : AgentCreate.t;
  policyForm : PolicyCreate.t }.

Definition initialWizard : Wizard :=
  {| activeStep := lit "metadata";
     agent := None;
     agentDefinition := None;
     availableTools := [];
     selectedToolIds := [];
     policy := None;
     error := emptyLit;
     loading := false;
     metadataForm := AgentCreate.mk emptyLit emptyLit emptyLit (nth 0 models []);
     policyForm := PolicyCreate.mk None false |}.

(** The state setters. *)
Definition setActiveStep (v : jsstring) (w : Wizard) : Wizard :=
  mkWizard v (agent w) (agentDefinition w) (availableTools w)
    (selectedToolIds w) (policy w) (error w) (loading w) (metadataForm w)
    (policyForm w).
Definition setAgent (v : option Agent.t) (w : Wizard) : Wizard :=
  mkWizard (activeStep w) v (agentDefinition w) (availableTools w)
    (selectedToolIds w) (policy w) (error w) (loading w) (metadataForm w)
    (policyForm w).
Definition setAgentDefinition (v : option AgentDefinition.t) (w : Wizard) : Wizard :=
  mkWizard (activeStep w) (agent w) v (availableTools w)
    (selectedToolIds w) (policy w) (error w) (loading w) (metadataForm w)
    (policyForm w).
Definition setAvailableTools (v : list Tool.t) (w : Wizard) : Wizard :=
  mkWizard (activeStep w) (agent w) (agentDefinition w) v
    (selectedToolIds w) (policy w) (error w) (loading w) (metadataForm w)
    (policyForm w).
Definition setSelectedToolIds (v : list Z) (w : Wizard) : Wizard :=
  mkWizard (activeStep w) (agent w) (agentDefinition w) (availableTools w)
    v (policy w) (error w) (loading w) (metadataForm w) (policyForm w).
Definition setPolicyState (v : option Policy.t) (w : Wizard) : Wizard :=
  mkWizard (activeStep w) (agent w) (agentDefinition w) (availableTools w)
    (selectedToolIds w) v (error w) (loading w) (metadataForm w)
    (policyForm w).
Definition setError (v : jsstring) (w : Wizard) : Wizard :=
  mkWizard (activeStep w) (agent w) (agentDefinition w) (availableTools w)
    (selectedToolIds w) (policy w) v (loading w) (metadataForm w)
    (policyForm w).
Definition setLoading (v : bool) (w : Wizard) : Wizard :=
  mkWizard (activeStep w) (agent w) (agentDefinition w) (availableTools w)
    (selectedToolIds w) (policy w) (error w) v (metadataForm w)
    (policyForm w).
Definition setMetadataForm (v : AgentCreate.t) (w : Wizard) : Wizard :=
  mkWizard (activeStep w) (agent w) (agentDefinition w) (availableTools w)
    (selectedToolIds w) (policy w) (error w) (loading w) v (policyForm w).
Definition setPolicyForm (v : PolicyCreate.t) (w : Wizard) : Wizard :=
  mkWizard (activeStep w) (agent w) (agentDefinition w) (availableTools w)
    (selectedToolIds w) (policy w) (error w) (loading w) (metadataForm w) v.

(** [isMetadataValid] *)
Definition isMetadataValid (metadataForm : AgentCreate.t) : bool :=
  (0 <? List.length (trim (AgentCreate.name metadataForm)))
  && (10 <=? List.length (trim (AgentCreate.description metadataForm)))
  && (5 <=? List.length (trim (AgentCreate.purpose metadataForm)))
  && (0 <? List.length (trim (AgentCreate.model metadataForm))).

(** [fetchTools], up to its [await], and after it. *)
Definition fetchTools (w : Wizard) : Wizard * option Call :=
  (setError emptyLit w, Some getTools).

Definition fetchTools_settled (r : Result (list Tool.t)) (w : Wizard) : Wizard :=
  match r with
  | Resolved tools => setAvailableTools tools w
  | Rejected _ => setError (lit "Failed to load tools. Please try again.") w
  end.

(** [fetchSelectedTools] *)
Definition fetchSelectedTools (agentId : Z) (w : Wizard) : Wizard * option Call :=
  (setError emptyLit w, Some (getAgentTools agentId)).

Definition fetchSelectedTools_settled (r : Result (list Tool.t)) (w : Wizard)
  : Wizard :=
  match r with
  | Resolved tools => setSelectedToolIds (map Tool.id tools) w
  | Rejected _ => setError (lit "Failed to load selected tools.") w
  end.

(** [fetchDefinition] *)
Definition fetchDefinition (agentId : Z) (w : Wizard) : Wizard * option Call :=
  (setLoading true (setError emptyLit w), Some (getDefinition agentId)).

Definition fetchDefinition_settled (r : Result AgentDefinition.t) (w : Wizard)
  : Wizard :=
  setLoading false
    match r with
    | Resolved definition => setAgentDefinition (Some definition) w
    | Rejected _ =>
        setError
          (lit "Unable to fetch agent definition. Ensure policy is configured.")
          w
    end.

(** [handleCreateAgent] *)
Definition handleCreateAgent (w : Wizard) : Wizard * option Call :=
  (setLoading true (setError emptyLit w), Some (createAgent (metadataForm w))).

Definition handleCreateAgent_settled (r : Result Agent.t) (w : Wizard) : Wizard :=
  setLoading false
    match r with
    | Resolved created => setActiveStep (lit "tools") (setAgent (Some created) w)
    | Rejected err =>
        let message := detail err ?? lit "Unable to create agent. Check inputs." in
        setError message w
    end.

(** [handleSaveTools] *)
Definition handleSaveTools (w : Wizard) : Wizard * option Call :=
  match agent w with
  | None =>
      (setError
         (lit "Agent not created. Please go back to Metadata step and create the agent first.")
         w, None)
  | Some a =>
      (setLoading true (setError emptyLit w),
       Some (setAgentTools (Agent.id a) (selectedToolIds w)))
  end.

Definition handleSaveTools_settled (r : Result (list Tool.t)) (w : Wizard)
  : Wizard :=
  setLoading false
    match r with
    | Resolved tools =>
        setActiveStep (lit "policies") (setSelectedToolIds (map Tool.id tools) w)
    | Rejected err =>
        let message := detail err ?? lit "Failed to save tools." in
        setError message w
    end.

(** [handleSavePolicy] *)
Definition handleSavePolicy (w : Wizard) : Wizard * option Call :=
  match agent w with
  | None =>
      (setError
         (lit "Agent not created. Please go back to Metadata step and create the agent first.")
         w, None)
  | Some a =>
      if PolicyCreate.require_approval_for_all_tool_calls (policyForm w)
         && (List.length (selectedToolIds w) =? 0)
      then
        (setError
           (lit "Agent has no tools and all tool calls require approval - this agent will be unusable.")
           w, None)
      else if match PolicyCreate.frequency_limit (policyForm w) with
              | Some limit => Qle_bool limit 0
              | None => false
              end
      then (setError (lit "Frequency limit must be positive when provided.") w, None)
      else
        (setLoading true (setError emptyLit w),
         Some (setPolicy (Agent.id a) (policyForm w)))
  end.

Definition handleSavePolicy_settled (r : Result Policy.t) (w : Wizard) : Wizard :=
  setLoading false
    match r with
    | Resolved saved => setActiveStep (lit "review") (setPolicyState (Some saved) w)
    | Rejected err =>
        let message := detail err ?? lit "Failed to save policy." in
        setError message w
    end.

(** The [onBack] callbacks handed to the tools, policies and review steps. *)
Definition onBack_tools : Wizard -> Wizard := setActiveStep (lit "metadata").
Definition onBack_policies : Wizard -> Wizard := setActiveStep (lit "tools").
Definition onBack_review : Wizard -> Wizard := setActiveStep (lit "policies").

(** The body of the [useEffect] on [[activeStep, agent]].  The three tests read
    the render's values; the fetchers only queue state updates. *)
Definition stepEffect (w : Wizard) : Wizard * list Call :=
  let render := w in
  let '(w, calls) :=
    if (activeStep render === lit "tools")
       && (List.length (availableTools render) =? 0)
    then let '(w', c) := fetchTools w in (w', match c with Some c => [c] | None => [] end)
    else (w, []) in
  let '(w, calls) :=
    match activeStep render === lit "policies", agent render with
    | true, Some a =>
        let '(w', c) := fetchSelectedTools (Agent.id a) w in
        (w', calls ++ match c with Some c => [c] | None => [] end)
    | _, _ => (w, calls)
    end in
  match activeStep render === lit "review", agent render with
  | true, Some a =>
      let '(w', c) := fetchDefinition (Agent.id a) w in
      (w', calls ++ match c with Some c => [c] | None => [] end)
  | _, _ => (w, calls)
  end.

(** ** components/steps *)

(** [MetadataStep]: the [disabled] attribute of the Next button. *)
Definition MetadataStep_nextDisabled (isValid loading : bool) : bool :=
  negb isValid || loading.

(** [ToolsStep] and [PolicyStep]: Back and Next are [disabled={loading}]. *)
Definition ToolsStep_nextDisabled (loading : bool) : bool := loading.
Definition PolicyStep_nextDisabled (loading : bool) : bool := loading.
Definition backDisabled (loading : bool) : bool := loading.

(** Every step shows the banner as [{error && <div>{error}</div>}]: nothing
    for the empty string. *)
Definition errorBanner (error : jsstring) : option jsstring :=
  match error with
  | [] => None
  | _ :: _ => Some error
  end.

(** [ToolsStep]: [selectedToolIds.includes(tool.id)]. *)
Definition includes (ids : list Z) (toolId : Z) : bool :=
  existsb (fun id => id =? toolId)%Z ids.

Definition checked (selectedToolIds : list Z) (tool : Tool.t) : bool :=
  includes selectedToolIds (Tool.id tool).

(** [ToolsStep]: the two branches of the check box's [onChange]. *)
Definition selectTool (selectedToolIds : list Z) (toolId : Z) : list Z :=
  selectedToolIds ++ [toolId].

Definition deselectTool (selectedToolIds : list Z) (toolId : Z) : list Z :=
  filter (fun id => negb (id =? toolId)%Z) selectedToolIds.

Definition onToolChange (targetChecked : bool) (toolId : Z)
    (selectedToolIds : list Z) : list Z :=
  if targetChecked then selectTool selectedToolIds toolId
  else deselectTool selectedToolIds toolId.

(** [ReviewStep] (the version with the question/answer harness): its own
    [useState] cells. *)
Module ReviewStep.

Record State := mk {
  question : jsstring;
  answer : option jsstring;
  qaError : option jsstring;
  qaLoading : bool }.

Definition initial : State := mk emptyLit None None false.

Definition setQuestion (v : jsstring) (s : State) : State :=
  mk v (answer s) (qaError s) (qaLoading s).
Definition setAnswer (v : option jsstring) (s : State) : State :=
  mk (question s) v (qaError s) (qaLoading s).
Definition setQaError (v : option jsstring) (s : State) : State :=
  mk (question s) (answer s) v (qaLoading s).
Definition setQaLoading (v : bool) (s : State) : State :=
  mk (question s) (answer s) (qaError s) v.

(** [agentDefinition?.agent_id ?? null] *)
Definition agentId (agentDefinition : option AgentDefinition.t) : option Z :=
  match agentDefinition with
  | Some d => Some (AgentDefinition.agent_id d)
  | None => None
  end.

(** [!!agentId]: null and 0 are falsy. *)
Definition hasAgentId (agentId : option Z) : bool :=
  match agentId with
  | Some n => negb (n =? 0)%Z
  | None => false
  end.

Definition canAsk (agentId : option Z) (s : State) : bool :=
  hasAgentId agentId && (0 <? List.length (trim (question s))) && negb (qaLoading s).

Definition askDisabled (agentId : option Z) (s : State) : bool :=
  negb (canAsk agentId s).

(** [onAsk], up to its [await], and after it. *)
Definition onAsk (agentId : option Z) (s : State) : State * option Call :=
  match agentId with
  | Some n =>
      if hasAgentId agentId then
        (setQaLoading true (setAnswer None (setQaError None s)),
         Some (askAgent n (AgentQARequest.mk (question s) None)))
      else (s, None)
  | None => (s, None)
  end.

Definition onAsk_settled (r : Result AgentQAResponse.t) (s : State) : State :=
  setQaLoading false
    match r with
    | Resolved res => setAnswer (Some (AgentQAResponse.answer res ?? emptyLit)) s
    | Rejected e =>
        let msg :=
          orElse (detail e) (orElse (message e) (lit "Failed to get an answer")) in
        setQaError (Some msg) s
    end.

(** The text area's [onChange]. *)
Definition onQuestionChange (v : jsstring) (s : State) : State :=
  setQaError None (setAnswer None (setQuestion v s)).

End ReviewStep.

(** ** The running page *)

(** The component whose handler awaits a call.  The page is mounted once; a
    [ReviewStep] instance is mounted each time the review step is entered and
    discarded when it is left, and the calls it started stay in flight. *)
Inductive Owner :=
| Page
| Review (instance : nat).

Record Inflight := mkInflight { owner : Owner; call : Call }.

Record World := mkWorld {
  page : Wizard;
  review : option ReviewStep.State;
  mounts : nat;
  inflight : list Inflight }.

Definition initialWorld : World := mkWorld initialWizard None 0 [].

Definition issued (o : Owner) (c : option Call) : list Inflight :=
  match c with
  | Some c => [mkInflight o c]
  | None => []
  end.

(** The dependency test of the effect.  [setAgent(created)] always installs a
    new object, so a resolved [createAgent] changes the [agent] dependency. *)
Definition depsChanged (agentSet : bool) (before after : Wizard) : bool :=
  negb (activeStep before === activeStep after) || agentSet.

(** [{activeStep === "review" && renderReviewStep()}] *)
Definition remount (after : Wizard) (review : option ReviewStep.State)
    (mounts : nat) : option ReviewStep.State * nat :=
  if activeStep after === lit "review" then
    match review with
    | Some s => (Some s, mounts)
    | None => (Some ReviewStep.initial, S mounts)
    end
  else (None, mounts).

(** One render after a batch of state updates: the review step is mounted or
    unmounted, then the effect runs if a dependency changed. *)
Definition commit (agentSet : bool) (before : Wizard) (w : World) : World :=
  let '(review', mounts') := remount (page w) (review w) (mounts w) in
  let '(page', calls) :=
    if depsChanged agentSet before (page w) then stepEffect (page w)
    else (page w, []) in
  mkWorld page' review' mounts' (inflight w ++ map (mkInflight Page) calls).

Definition isResolved {A : Type} (r : Result A) : bool :=
  match r with
  | Resolved _ => true
  | Rejected _ => false
  end.

Definition removeAt {A : Type} (i : nat) (l : list A) : list A :=
  firstn i l ++ skipn (S i) l.

(** What the user and the network can do to the page. *)
Inductive Event :=
| ChangeName (value : jsstring)
| ChangeDescription (value : jsstring)
| ChangePurpose (value : jsstring)
| ChangeModel (value : jsstring)
| ClickNextTools
| ChangeToolChecked (toolId : Z)
| ClickNextPolicies
| ChangeFrequencyLimit (value : option number)
| ChangeRequireApproval (checked : bool)
| ClickNextReview
| ClickBack
| ChangeQuestion (value : jsstring)
| ClickAsk
| Settle (i : nat) (resp : Response).

Definition onStep (key : string) (w : World) : bool :=
  activeStep (page w) === lit key.

Definition withPage (p : Wizard) (w : World) : World :=
  mkWorld p (review w) (mounts w) (inflight w).

(** A click on a button that runs a page handler. *)
Definition click (handler : Wizard -> Wizard * option Call) (w : World) : World :=
  let '(p, c) := handler (page w) in
  commit false (page w)
    (mkWorld p (review w) (mounts w) (inflight w ++ issued Page c)).

(** A call of the page settles: its handler resumes. *)
Definition settlePage (c : Call) (resp : Response) (p : Wizard)
  : option (Wizard * bool) :=
  match c, resp with
  | createAgent _, AgentResponse r =>
      Some (handleCreateAgent_settled r p, isResolved r)
  | getTools, ToolsResponse r => Some (fetchTools_settled r p, false)
  | setAgentTools _ _, ToolsResponse r => Some (handleSaveTools_settled r p, false)
  | getAgentTools _, ToolsResponse r => Some (fetchSelectedTools_settled r p, false)
  | setPolicy _ _, PolicyResponse r => Some (handleSavePolicy_settled r p, false)
  | getDefinition _, DefinitionResponse r => Some (fetchDefinition_settled r p, false)
  | _, _ => None
  end.

(** A call of a [ReviewStep] instance settles: the state updates reach the
    instance only if it is still the mounted one. *)
Definition settleReview (instance : nat) (c : Call) (resp : Response) (w : World)
  : option (option ReviewStep.State) :=
  match c, resp with
  | askAgent _ _, QAResponse r =>
      Some match review w with
           | Some s =>
               if instance =? mounts w then Some (ReviewStep.onAsk_settled r s)
               else Some s
           | None => None
           end
  | _, _ => None
  end.

(** An event either is not possible in [w] (the control is not rendered or is
    disabled, no such call is in flight) or leads to the next state. *)
Definition dispatch (e : Event) (w : World) : option World :=
  let p := page w in
  let form := metadataForm p in
  match e with
  | ChangeName v =>
      if onStep "metadata" w then
        Some (withPage (setMetadataForm
          (AgentCreate.mk v (AgentCreate.description form)
             (AgentCreate.purpose form) (AgentCreate.model form)) p) w)
      else None
  | ChangeDescription v =>
      if onStep "metadata" w then
        Some (withPage (setMetadataForm
          (AgentCreate.mk (AgentCreate.name form) v
             (AgentCreate.purpose form) (AgentCreate.model form)) p) w)
      else None
  | ChangePurpose v =>
      if onStep "metadata" w then
        Some (withPage (setMetadataForm
          (AgentCreate.mk (AgentCreate.name form) (AgentCreate.description form)
             v (AgentCreate.model form)) p) w)
      else None
  | ChangeModel v =>
      if onStep "metadata" w && existsb (jsstring_eqb v) models then
        Some (withPage (setMetadataForm
          (AgentCreate.mk (AgentCreate.name form) (AgentCreate.description form)
             (AgentCreate.purpose form) v) p) w)
      else None
  | ClickNextTools =>
      if onStep "metadata" w
         && negb (MetadataStep_nextDisabled (isMetadataValid form) (loading p))
      then Some (click handleCreateAgent w)
      else None
  | ChangeToolChecked toolId =>
      if onStep "tools" w
         && existsb (fun tool => Tool.id tool =? toolId)%Z (availableTools p)
      then
        let targetChecked := negb (includes (selectedToolIds p) toolId) in
        Some (withPage (setSelectedToolIds
          (onToolChange targetChecked toolId (selectedToolIds p)) p) w)
      else None
  | ClickNextPolicies =>
      if onStep "tools" w && negb (ToolsStep_nextDisabled (loading p))
      then Some (click handleSaveTools w)
      else None
  | ChangeFrequencyLimit value =>
      if onStep "policies" w then
        Some (withPage (setPolicyForm
          (PolicyCreate.mk value
             (PolicyCreate.require_approval_for_all_tool_calls (policyForm p))) p) w)
      else None
  | ChangeRequireApproval b =>
      if onStep "policies" w then
        Some (withPage (setPolicyForm
          (PolicyCreate.mk (PolicyCreate.frequency_limit (policyForm p)) b) p) w)
      else None
  | ClickNextReview =>
      if onStep "policies" w && negb (PolicyStep_nextDisabled (loading p))
      then Some (click handleSavePolicy w)
      else None
  | ClickBack =>
      if backDisabled (loading p) then None
      else if onStep "tools" w then Some (click (fun p => (onBack_tools p, None)) w)
      else if onStep "policies" w then Some (click (fun p => (onBack_policies p, None)) w)
      else if onStep "review" w then Some (click (fun p => (onBack_review p, None)) w)
      else None
  | ChangeQuestion v =>
      match review w, agentDefinition p with
      | Some s, Some d =>
          if ReviewStep.hasAgentId (ReviewStep.agentId (Some d)) then
            Some (mkWorld p (Some (ReviewStep.onQuestionChange v s)) (mounts w)
                    (inflight w))
          else None
      | _, _ => None
      end
  | ClickAsk =>
      match review w, agentDefinition p with
      | Some s, Some d =>
          let agentId := ReviewStep.agentId (Some d) in
          if ReviewStep.askDisabled agentId s then None
          else
            let '(s', c) := ReviewStep.onAsk agentId s in
            Some (mkWorld p (Some s') (mounts w)
                    (inflight w ++ issued (Review (mounts w)) c))
      | _, _ => None
      end
  | Settle i resp =>
      match nth_error (inflight w) i with
      | None => None
      | Some f =>
          let rest := removeAt i (inflight w) in
          match owner f with
          | Page =>
              match settlePage (call f) resp p with
              | Some (p', agentSet) =>
                  Some (commit agentSet p (mkWorld p' (review w) (mounts w) rest))
              | None => None
              end
          | Review instance =>
              match settleReview instance (call f) resp w with
              | Some r => Some (mkWorld p r (mounts w) rest)
              | None => None
              end
          end
      end
  end.

Fixpoint run (events : list Event) (w : World) : option World :=
  match events with
  | [] => Some w
  | e :: rest =>
      match dispatch e w with
      | Some w' => run rest w'
      | None => None
      end
  end.

(** The states the page can be in. *)
Definition reachable (w : World) : Prop :=
  exists events, run events initialWorld = Some w.

(** ** Vocabulary of the properties *)

(** The key that follows, and the key that precedes, a key in [steps]. *)
Fixpoint nextKey (key : jsstring) (l : list (jsstring * jsstring))
  : option jsstring :=
  match l with
  | (k, _) :: rest =>
      match rest with
      | (k', _) :: _ => if key === k then Some k' else nextKey key rest
      | [] => None
      end
  | [] => None
  end.

Fixpoint previousKey (key : jsstring) (l : list (jsstring * jsstring))
  : option jsstring :=
  match l with
  | (k, _) :: rest =>
      match rest with
      | (k', _) :: _ => if key === k' then Some k else previousKey key rest
      | [] => None
      end
  | [] => None
  end.

(** Two page states that differ at most in the error message. *)
Definition sameExceptError (w w' : Wizard) : Prop :=
  activeStep w' = activeStep w /\ agent w' = agent w
  /\ agentDefinition w' = agentDefinition w
  /\ availableTools w' = availableTools w
  /\ selectedToolIds w' = selectedToolIds w /\ policy w' = policy w
  /\ loading w' = loading w /\ metadataForm w' = metadataForm w
  /\ policyForm w' = policyForm w.

(** Two page states that differ at most in the active step. *)
Definition sameExceptStep (w w' : Wizard) : Prop :=
  agent w' = agent w /\ agentDefinition w' = agentDefinition w
  /\ availableTools w' = availableTools w
  /\ selectedToolIds w' = selectedToolIds w /\ policy w' = policy w
  /\ error w' = error w /\ loading w' = loading w
  /\ metadataForm w' = metadataForm w /\ policyForm w' = policyForm w.

(** What a press of Back leaves alone, callback and following render
    together. *)
Definition keptByBack (w w' : Wizard) : Prop :=
  agent w' = agent w /\ agentDefinition w' = agentDefinition w
  /\ availableTools w' = availableTools w
  /\ selectedToolIds w' = selectedToolIds w /\ policy w' = policy w
  /\ loading w' = loading w /\ metadataForm w' = metadataForm w
  /\ policyForm w' = policyForm w.

(** The outcome of a settled submit call: on success the page is on the next
    step; on failure it stays, the error is the backend's detail or else the
    handler's fallback, and the banner shows it unless it is empty. *)
Definition submitOutcome {A : Type} (fallback : jsstring) (r : Result A)
    (w w' : World) : Prop :=
  match r with
  | Resolved _ => nextKey (activeStep (page w)) steps = Some (activeStep (page w'))
  | Rejected err =>
      activeStep (page w') = activeStep (page w)
      /\ error (page w') = detail err ?? fallback
      /\ errorBanner (error (page w'))
         = if detail err ?? fallback === emptyLit then None
           else Some (detail err ?? fallback)
  end.

(** The calls whose handler raises the page's [loading] flag before awaiting
    them. *)
Definition raisesLoading (c : Call) : bool :=
  match c with
  | createAgent _ | setAgentTools _ _ | setPolicy _ _ | getDefinition _ => true
  | getTools | getAgentTools _ | askAgent _ _ => false
  end.

Definition guardedByLoading (f : Inflight) : bool := raisesLoading (call f).

(** The calls a click issues directly (the fetchers run from the effect). *)
Definition startedByClick (f : Inflight) : bool :=
  match call f with
  | createAgent _ | setAgentTools _ _ | setPolicy _ _ | askAgent _ _ => true
  | getTools | getAgentTools _ | getDefinition _ => false
  end.

(** The calls that only read from the backend. *)
Definition isRead (f : Inflight) : bool :=
  match call f with
  | getTools | getAgentTools _ | getDefinition _ => true
  | createAgent _ | setAgentTools _ _ | setPolicy _ _ | askAgent _ _ => false
  end.

(** The calls awaited by a given [ReviewStep] instance. *)
Definition askedBy (instance : nat) (f : Inflight) : bool :=
  match owner f with
  | Review k => k =? instance
  | Page => false
  end.

(** The step a call in flight pins the page to: the buttons that could leave
    the step are disabled until it settles. *)
Definition pinned (p : Wizard) (f : Inflight) : Prop :=
  match call f with
  | createAgent _ => activeStep p = lit "metadata"
  | setAgentTools _ _ => activeStep p = lit "tools"
  | setPolicy _ _ => activeStep p = lit "policies"
  | getDefinition _ => activeStep p = lit "review"
  | getTools | getAgentTools _ | askAgent _ _ => True
  end.

(** Who awaits what: the page never awaits [askAgent], a review step awaits
    nothing else, and no call belongs to an instance not yet mounted. *)
Definition wellOwned (mounts : nat) (f : Inflight) : Prop :=
  match owner f, call f with
  | Page, askAgent _ _ => False
  | Page, _ => True
  | Review k, askAgent _ _ => k <= mounts
  | Review _, _ => False
  end.

(** The invariant of the running page. *)
Record Invariant (w : World) : Prop := mkInvariant {
  inv_step : In (activeStep (page w)) (map fst steps);
  inv_agent : activeStep (page w) <> lit "metadata" -> agent (page w) <> None;
  inv_loading :
    List.length (filter guardedByLoading (inflight w))
    = if loading (page w) then 1 else 0;
  inv_pinned : Forall (pinned (page w)) (inflight w);
  inv_owned : Forall (wellOwned (mounts w)) (inflight w);
  inv_mounted : review w <> None <-> activeStep (page w) = lit "review";
  inv_asking : forall s, review w = Some s ->
    List.length (filter (askedBy (mounts w)) (inflight w))
    = if ReviewStep.qaLoading s then 1 else 0 }.

(** ** Sample data and sessions *)

Definition sampleAgent : Agent.t :=
  Agent.mk 7 (lit "Helper") (lit "Answers questions about invoices")
    (lit "Billing support") (lit "gpt-4.1-mini") (lit "2024-01-01T00:00:00")
    (lit "2024-01-01T00:00:00").

Definition sampleTool : Tool.t :=
  Tool.mk 3 (lit "search") (lit "Searches the knowledge base") (lit "{}") (lit "{}").

Definition samplePolicy : Policy.t := Policy.mk 1 7 None false.

Definition sampleDefinition : AgentDefinition.t :=
  AgentDefinition.mk 7 (lit "Helper") (lit "Answers questions about invoices")
    (lit "Billing support") (lit "gpt-4.1-mini") []
    (AgentDefinitionPolicy.mk [] None false).

(** The metadata form is filled in and Next is clicked: [createAgent] is in
    flight. *)
Definition sessionCreating : list Event :=
  [ ChangeName (lit "Helper");
    ChangeDescription (lit "Answers questions about invoices");
    ChangePurpose (lit "Billing support");
    ClickNextTools ].

(** The agent is created: the tools step is shown and the effect has started
    [getTools]. *)
Definition sessionTools : list Event :=
  sessionCreating ++ [ Settle 0 (AgentResponse (Resolved sampleAgent)) ].

(** The tool list arrives, no tool is selected, Next is clicked and the empty
    assignment is saved: the policies step is shown, and the selected tools
    are read back. *)
Definition sessionPolicies : list Event :=
  sessionTools
  ++ [ Settle 0 (ToolsResponse (Resolved [sampleTool]));
       ClickNextPolicies;
       Settle 0 (ToolsResponse (Resolved []));
       Settle 0 (ToolsResponse (Resolved [])) ].

(** The policy is saved and the definition is loaded: the review step is
    shown with the harness ready. *)
Definition sessionReview : list Event :=
  sessionPolicies
  ++ [ ClickNextReview;
       Settle 0 (PolicyResponse (Resolved samplePolicy));
       Settle 0 (DefinitionResponse (Resolved sampleDefinition)) ].

(** A question is typed. *)
Definition sessionQuestion : list Event :=
  sessionReview ++ [ ChangeQuestion (lit "What is an invoice?") ].

(** The question is asked, and while it is in flight the user goes back to the
    policies step and submits it again. *)
Definition sessionOverlap : list Event :=
  sessionQuestion
  ++ [ ClickAsk;
       ClickBack;
       Settle 1 (ToolsResponse (Resolved []));
       ClickNextReview ].

(** On the policies step with no tool selected, approval is required for all
    tool calls; then the frequency limit is set to 0. *)
Definition sessionUnusable : list Event :=
  sessionPolicies ++ [ ChangeRequireApproval true ].

Definition sessionUnusableZero : list Event :=
  sessionUnusable ++ [ ChangeFrequencyLimit (Some 0%Q) ].

(** On the policies step the frequency limit is set to -1. *)
Definition sessionNegativeLimit : list Event :=
  sessionPolicies ++ [ ChangeFrequencyLimit (Some (-1)%Q) ].

Definition worldAfter (events : list Event) : World :=
  match run events initialWorld with
  | Some w => w
  | None => initialWorld
  end.

(** ** components/Stepper.tsx and the page's own render *)

(** [Stepper]: the [isActive] flag of each step, in display order. *)
Definition Stepper_isActive (steps : list (jsstring * jsstring))
    (activeKey : jsstring) : list bool :=
  map (fun step => fst step === activeKey) steps.

(** [AgentBuilderPage]: the four conditional renders
    [{activeStep === key && render...()}], in source order. *)
Definition renderedSteps (activeStep : jsstring) : list bool :=
  [ activeStep === lit "metadata"; activeStep === lit "tools";
    activeStep === lit "policies"; activeStep === lit "review" ].

(** ** Vocabulary of the further properties *)

Definition isGetTools (f : Inflight) : bool :=
  match call f with
  | getTools => true
  | _ => false
  end.

Definition resolved (resp : Response) : bool :=
  match resp with
  | AgentResponse r => isResolved r
  | ToolsResponse r => isResolved r
  | PolicyResponse r => isResolved r
  | DefinitionResponse r => isResolved r
  | QAResponse r => isResolved r
  end.

(** The events that are edits of the metadata form, and of the policy form. *)
Definition editsMetadataForm (e : Event) : bool :=
  match e with
  | ChangeName _ | ChangeDescription _ | ChangePurpose _ | ChangeModel _ => true
  | _ => false
  end.

Definition editsPolicyForm (e : Event) : bool :=
  match e with
  | ChangeFrequencyLimit _ | ChangeRequireApproval _ => true
  | _ => false
  end.

(** The page holds an agent with this id. *)
Definition usesAgent (p : Wizard) (agentId : Z) : Prop :=
  exists a : Agent.t, agent p = Some a /\ Agent.id a = agentId.

Definition positiveOrAbsent (limit : option number) : Prop :=
  match limit with
  | Some q => (0 < q)%Q
  | None => True
  end.

(** What the guards in front of each call let through. *)
Definition wellFormedCall (p : Wizard) (f : Inflight) : Prop :=
  match call f with
  | createAgent payload => isMetadataValid payload = true
  | setAgentTools agentId _ => usesAgent p agentId
  | setPolicy agentId payload =>
      usesAgent p agentId
      /\ positiveOrAbsent (PolicyCreate.frequency_limit payload)
  | getDefinition agentId => usesAgent p agentId
  | askAgent agentId payload =>
      agentId <> 0%Z /\ trim (AgentQARequest.question payload) <> []
  | getTools | getAgentTools _ => True
  end.

(** The harness shows an answer or an error, never both, and neither while a
    question is in flight. *)
Definition settledHarness (s : ReviewStep.State) : Prop :=
  (ReviewStep.answer s = None \/ ReviewStep.qaError s = None)
  /\ (ReviewStep.qaLoading s = true ->
      ReviewStep.answer s = None /\ ReviewStep.qaError s = None).

(** The model chosen in the form, and in every [createAgent] in flight, is
    one of the models offered by the select box. *)
Definition offersModel (f : Inflight) : Prop :=
  match call f with
  | createAgent payload => In (AgentCreate.model payload) models
  | _ => True
  end.

Definition ModelOffered (w : World) : Prop :=
  In (AgentCreate.model (metadataForm (page w))) models
  /\ Forall offersModel (inflight w).

(** A second invariant of the running page, about what is sent and shown. *)
Record Safe (w : World) : Prop := mkSafe {
  safe_calls : Forall (wellFormedCall (page w)) (inflight w);
  safe_policy : activeStep (page w) = lit "review" -> policy (page w) <> None;
  safe_harness : forall s, review w = Some s -> settledHarness s }.

(** The tool list has arrived on the tools step. *)
Definition sessionToolsLoaded : list Event :=
  sessionTools ++ [ Settle 0 (ToolsResponse (Resolved [sampleTool])) ].

(** A tool is checked and the save of the selection is in flight. *)
Definition sessionSavingTools : list Event :=
  sessionToolsLoaded ++ [ ChangeToolChecked 3; ClickNextPolicies ].

(** The save is rejected. *)
Definition sessionToolsRejected : list Event :=
  sessionSavingTools
  ++ [ Settle 0 (ToolsResponse (Rejected (mkApiError None None))) ].

(** The save of the policy is in flight. *)
Definition sessionSavingPolicy : list Event :=
  sessionPolicies ++ [ ClickNextReview ].

(** The response of the backend to a call when it fails. *)
Definition rejection (c : Call) (err : ApiError) : Response :=
  match c with
  | createAgent _ => AgentResponse (Rejected err)
  | getTools | setAgentTools _ _ | getAgentTools _ => ToolsResponse (Rejected err)
  | setPolicy _ _ => PolicyResponse (Rejected err)
  | getDefinition _ => DefinitionResponse (Rejected err)
  | askAgent _ _ => QAResponse (Rejected err)
  end.

(** The question is asked, the user goes back to the policies step, submits it
    again and, on the review step that is mounted anew with the definition
    still loaded, types the question again while the first one is still in
    flight. *)
Definition sessionReentered : list Event :=
  sessionQuestion
  ++ [ ClickAsk;
       ClickBack;
       Settle 1 (ToolsResponse (Resolved []));
       ClickNextReview;
       Settle 1 (PolicyResponse (Resolved samplePolicy));
       Settle 1 (DefinitionResponse (Resolved sampleDefinition));
       ChangeQuestion (lit "What is an invoice?") ].

(** The calls in flight that an event leaves in flight: all of them, but for
    the one that settles. *)
Definition remaining (e : Event) (w : World) : list Inflight :=
  match e with
  | Settle i _ => removeAt i (inflight w)
  | _ => inflight w
  end.

(** The question is asked. *)
Definition sessionAsking : list Event := sessionQuestion ++ [ ClickAsk ].

(** * Properties *)

(** ** Strings and lists *)

Lemma jsstring_eqb_eq (a b : jsstring) : (a === b) = true <-> a = b.
Proof.
  unfold jsstring_eqb. destruct (list_eq_dec N.eq_dec a b); split; congruence.
Qed.

Lemma jsstring_eqb_refl (a : jsstring) : (a === a) = true.
Proof. now apply jsstring_eqb_eq. Qed.

Lemma jsstring_eqb_neq (a b : jsstring) : (a === b) = false <-> a <> b.
Proof.
  unfold jsstring_eqb. destruct (list_eq_dec N.eq_dec a b); split; congruence.
Qed.

Lemma nonempty_length {A : Type} (l : list A) : 0 < List.length l <-> l <> [].
Proof.
  destruct l; simpl; split; intros H; try lia; try congruence.
Qed.

Lemma includes_In (ids : list Z) (toolId : Z) :
  includes ids toolId = true <-> In toolId ids.
Proof.
  unfold includes. rewrite existsb_exists. split.
  - intros [x [Hin Heq]]. apply Z.eqb_eq in Heq. now subst.
  - intros Hin. exists toolId. split; [assumption | apply Z.eqb_refl].
Qed.

Lemma deselectTool_absent (ids : list Z) (toolId : Z) :
  ~ In toolId ids -> deselectTool ids toolId = ids.
Proof.
  unfold deselectTool. induction ids as [|x ids IH]; simpl; intros Hnot.
  - reflexivity.
  - destruct (Z.eqb_spec x toolId) as [->|Hne]; simpl.
    + exfalso. apply Hnot. now left.
    + f_equal. apply IH. intros Hin. apply Hnot. now right.
Qed.

Lemma deselectTool_removes (ids : list Z) (toolId : Z) :
  ~ In toolId (deselectTool ids toolId).
Proof.
  unfold deselectTool. intros Hin. apply filter_In in Hin.
  destruct Hin as [_ Hne]. now rewrite Z.eqb_refl in Hne.
Qed.

(** ** The handlers, one at a time *)

Lemma setError_frame (msg : jsstring) (w : Wizard) :
  sameExceptError w (setError msg w).
Proof. unfold sameExceptError; simpl; repeat split. Qed.

Lemma setActiveStep_frame (key : jsstring) (w : Wizard) :
  sameExceptStep w (setActiveStep key w).
Proof. unfold sameExceptStep; simpl; repeat split. Qed.

(** ** The step-entry effect *)

Arguments lit : simpl never.
Arguments jsstring_eqb : simpl never.

(** Comparisons of two literals are decided by evaluation. *)
Ltac decide_keys :=
  repeat match goal with
    | |- context [lit ?a === lit ?b] =>
        let v := eval vm_compute in (lit a === lit b) in
        change (lit a === lit b) with v
    | H : context [lit ?a === lit ?b] |- _ =>
        let v := eval vm_compute in (lit a === lit b) in
        change (lit a === lit b) with v in H
    end.

Lemma activeStep_cases (p : Wizard) :
  In (activeStep p) (map fst steps) ->
  activeStep p = lit "metadata" \/ activeStep p = lit "tools"
  \/ activeStep p = lit "policies" \/ activeStep p = lit "review".
Proof.
  simpl. intros [H | [H | [H | [H | []]]]]; symmetry in H; tauto.
Qed.

(** What the effect does on each step. *)
Lemma stepEffect_cases (p : Wizard) :
  In (activeStep p) (map fst steps) ->
  (activeStep p = lit "metadata" /\ stepEffect p = (p, []))
  \/ (activeStep p = lit "tools"
      /\ stepEffect p
         = if List.length (availableTools p) =? 0
           then (setError emptyLit p, [getTools])
           else (p, []))
  \/ (activeStep p = lit "policies"
      /\ stepEffect p
         = match agent p with
           | Some a => (setError emptyLit p, [getAgentTools (Agent.id a)])
           | None => (p, [])
           end)
  \/ (activeStep p = lit "review"
      /\ stepEffect p
         = match agent p with
           | Some a =>
               (setLoading true (setError emptyLit p), [getDefinition (Agent.id a)])
           | None => (p, [])
           end).
Proof.
  intros Hin.
  destruct (activeStep_cases p Hin) as [H | [H | [H | H]]];
    [left | right; left | right; right; left | right; right; right];
    (split; [exact H|]); unfold stepEffect; rewrite H; decide_keys; simpl.
  - reflexivity.
  - destruct (List.length (availableTools p) =? 0); reflexivity.
  - destruct (agent p); reflexivity.
  - destruct (agent p); reflexivity.
Qed.

(** ** Calls in flight *)

Lemma removeAt_cons {A : Type} (i : nat) (y : A) (l : list A) :
  removeAt (S i) (y :: l) = y :: removeAt i l.
Proof. reflexivity. Qed.

Lemma filter_length_removeAt {A : Type} (P : A -> bool) (l : list A) (i : nat)
    (x : A) :
  nth_error l i = Some x ->
  List.length (filter P l)
  = List.length (filter P (removeAt i l)) + (if P x then 1 else 0).
Proof.
  revert i. induction l as [|y l IH]; intros [|i] H; simpl in H; try discriminate.
  - injection H as ->. unfold removeAt. simpl. destruct (P x); simpl; lia.
  - specialize (IH i H). rewrite removeAt_cons. simpl.
    destruct (P y); simpl; lia.
Qed.

Lemma Forall_removeAt {A : Type} (P : A -> Prop) (l : list A) (i : nat) :
  Forall P l -> Forall P (removeAt i l).
Proof.
  intros H. revert i. induction H as [|y l Hy Hl IH]; intros [|i].
  - constructor.
  - constructor.
  - exact Hl.
  - rewrite removeAt_cons. constructor; [exact Hy | apply IH].
Qed.

Lemma Forall_nth_error {A : Type} (P : A -> Prop) (l : list A) (i : nat) (x : A) :
  Forall P l -> nth_error l i = Some x -> P x.
Proof.
  intros H Hnth. rewrite Forall_forall in H. apply H.
  eapply nth_error_In. exact Hnth.
Qed.

Lemma pinned_same_step (p p' : Wizard) (f : Inflight) :
  activeStep p' = activeStep p -> pinned p f -> pinned p' f.
Proof. unfold pinned. intros ->. trivial. Qed.

Lemma Forall_pinned_same_step (p p' : Wizard) (fl : list Inflight) :
  activeStep p' = activeStep p -> Forall (pinned p) fl -> Forall (pinned p') fl.
Proof.
  intros Hstep H. eapply Forall_impl; [|exact H].
  intros f. now apply pinned_same_step.
Qed.

Lemma Forall_pinned_idle (p : Wizard) (fl : list Inflight) :
  List.length (filter guardedByLoading fl) = 0 -> Forall (pinned p) fl.
Proof.
  induction fl as [|f fl IH]; simpl; intros H; constructor.
  - unfold guardedByLoading in H. unfold pinned.
    destruct (call f); simpl in H; try discriminate; exact I.
  - apply IH. destruct (guardedByLoading f); simpl in H; [discriminate | exact H].
Qed.

Lemma wellOwned_mono (m : nat) (f : Inflight) :
  wellOwned m f -> wellOwned (S m) f.
Proof.
  unfold wellOwned. destruct (owner f), (call f); auto.
Qed.

Lemma askedBy_fresh (m : nat) (fl : list Inflight) :
  Forall (wellOwned m) fl -> List.length (filter (askedBy (S m)) fl) = 0.
Proof.
  induction 1 as [|f fl Hf _ IH]; simpl; [reflexivity|].
  unfold askedBy at 1. unfold wellOwned in Hf.
  destruct (owner f) as [|k]; [exact IH|].
  destruct (call f); try contradiction.
  destruct (Nat.eqb_spec k (S m)); [lia | exact IH].
Qed.

Lemma loading_of_guarded (p : Wizard) (fl : list Inflight) (i : nat) (f : Inflight) :
  List.length (filter guardedByLoading fl) = (if loading p then 1 else 0) ->
  nth_error fl i = Some f ->
  guardedByLoading f = true ->
  loading p = true /\ List.length (filter guardedByLoading (removeAt i fl)) = 0.
Proof.
  intros Hcount Hnth Hg.
  rewrite (filter_length_removeAt guardedByLoading fl i Hnth), Hg in Hcount.
  destruct (loading p); [split; [reflexivity | lia] | lia].
Qed.

(** ** The invariant *)

Lemma Invariant_initial : Invariant initialWorld.
Proof.
  constructor; simpl.
  - left. reflexivity.
  - intros H. exfalso. apply H. reflexivity.
  - reflexivity.
  - constructor.
  - constructor.
  - split; [congruence | intros H; vm_compute in H; discriminate].
  - discriminate.
Qed.

(** A render keeps the invariant, provided the batch of updates it follows
    left the page consistent with the calls in flight and, when it enters the
    review step, not loading. *)
Lemma Invariant_commit (agentSet : bool) (p0 p1 : Wizard)
    (r : option ReviewStep.State) (m : nat) (fl : list Inflight) :
  In (activeStep p1) (map fst steps) ->
  (activeStep p1 <> lit "metadata" -> agent p1 <> None) ->
  List.length (filter guardedByLoading fl) = (if loading p1 then 1 else 0) ->
  Forall (pinned p1) fl ->
  Forall (wellOwned m) fl ->
  (forall s, r = Some s ->
     List.length (filter (askedBy m) fl) = if ReviewStep.qaLoading s then 1 else 0) ->
  (depsChanged agentSet p0 p1 = true -> activeStep p1 = lit "review" ->
   loading p1 = false) ->
  Invariant (commit agentSet p0 (mkWorld p1 r m fl)).
Proof.
  intros Hkeys Hagent Hload Hpin Hown Hask Hfresh.
  unfold commit. cbn [page review mounts inflight].
  assert (Hmount :
    forall m' r', remount p1 r m = (r', m') ->
      (r' <> None <-> activeStep p1 = lit "review")
      /\ Forall (wellOwned m') fl
      /\ (forall s, r' = Some s ->
            List.length (filter (askedBy m') fl)
            = if ReviewStep.qaLoading s then 1 else 0)).
  { intros m' r'. unfold remount.
    destruct (activeStep p1 === lit "review") eqn:E.
    - apply jsstring_eqb_eq in E. destruct r as [s|]; intros [= <- <-].
      + split; [split; congruence|]. split; [exact Hown | exact Hask].
      + split; [split; congruence|]. split.
        * eapply Forall_impl; [|exact Hown]. apply wellOwned_mono.
        * intros s [= <-]. simpl. now apply askedBy_fresh.
    - apply jsstring_eqb_neq in E. intros [= <- <-].
      split; [split; congruence|]. split; [exact Hown | discriminate]. }
  destruct (remount p1 r m) as [r' m'].
  destruct (Hmount m' r' eq_refl) as [Hm1 [Hm2 Hm3]]. clear Hmount.
  assert (Hidle : Invariant (mkWorld p1 r' m' (fl ++ map (mkInflight Page) []))).
  { simpl. rewrite app_nil_r. constructor; assumption. }
  destruct (depsChanged agentSet p0 p1) eqn:Hdeps; [|exact Hidle].
  destruct (stepEffect_cases p1 Hkeys)
    as [[Hs He] | [[Hs He] | [[Hs He] | [Hs He]]]]; rewrite He.
  - exact Hidle.
  - destruct (List.length (availableTools p1) =? 0); [|exact Hidle].
    constructor; cbn [page review mounts inflight map]; simpl activeStep;
      simpl agent; simpl loading; try assumption.
    + rewrite filter_app, length_app. simpl. lia.
    + apply Forall_app. split; [exact Hpin | repeat constructor].
    + apply Forall_app. split; [exact Hm2 | repeat constructor].
    + intros s Hs'. rewrite filter_app, length_app. simpl.
      rewrite (Hm3 s Hs'). lia.
  - destruct (agent p1) as [a|] eqn:Ha; [|exact Hidle].
    constructor; cbn [page review mounts inflight map]; simpl activeStep;
      simpl agent; simpl loading; try assumption.
    + rewrite Ha. exact Hagent.
    + rewrite filter_app, length_app. simpl. lia.
    + apply Forall_app. split; [exact Hpin | repeat constructor].
    + apply Forall_app. split; [exact Hm2 | repeat constructor].
    + intros s Hs'. rewrite filter_app, length_app. simpl.
      rewrite (Hm3 s Hs'). lia.
  - destruct (agent p1) as [a|] eqn:Ha; [|exact Hidle].
    specialize (Hfresh eq_refl Hs). rewrite Hfresh in Hload.
    constructor; cbn [page review mounts inflight map]; simpl activeStep;
      simpl agent; simpl loading; try assumption.
    + rewrite Ha. exact Hagent.
    + rewrite filter_app, length_app. simpl. lia.
    + apply Forall_app. split; [exact Hpin|].
      constructor; [exact Hs | constructor].
    + apply Forall_app. split; [exact Hm2 | repeat constructor].
    + intros s Hs'. rewrite filter_app, length_app. simpl.
      rewrite (Hm3 s Hs'). lia.
Qed.

Lemma depsChanged_same_step (p0 p1 : Wizard) :
  activeStep p1 = activeStep p0 -> depsChanged false p0 p1 = false.
Proof.
  intros H. unfold depsChanged. rewrite H, jsstring_eqb_refl. reflexivity.
Qed.

(** Editing a form or the tool selection. *)
Lemma Invariant_withPage (p1 : Wizard) (w : World) :
  Invariant w ->
  activeStep p1 = activeStep (page w) ->
  agent p1 = agent (page w) ->
  loading p1 = loading (page w) ->
  Invariant (withPage p1 w).
Proof.
  intros [H1 H2 H3 H4 H5 H6 H7] Hstep Hagent Hload.
  constructor; unfold withPage; cbn [page review mounts inflight];
    rewrite ?Hstep, ?Hagent, ?Hload; try assumption.
  eapply Forall_pinned_same_step; [exact Hstep | exact H4].
Qed.

(** A click on an enabled button of the page. *)
Lemma Invariant_click (handler : Wizard -> Wizard * option Call) (w : World)
    (p1 : Wizard) (c : option Call) :
  Invariant w ->
  loading (page w) = false ->
  handler (page w) = (p1, c) ->
  In (activeStep p1) (map fst steps) ->
  (activeStep p1 <> lit "metadata" -> agent p1 <> None) ->
  match c with
  | Some k =>
      loading p1 = true /\ raisesLoading k = true
      /\ pinned p1 (mkInflight Page k) /\ wellOwned (mounts w) (mkInflight Page k)
  | None => loading p1 = false
  end ->
  (activeStep p1 = lit "review" -> activeStep p1 = activeStep (page w)) ->
  Invariant (click handler w).
Proof.
  intros [H1 H2 H3 H4 H5 H6 H7] Hidle Hrun Hkeys Hagent Hcall Hstay.
  rewrite Hidle in H3.
  unfold click. rewrite Hrun. apply Invariant_commit.
  - exact Hkeys.
  - exact Hagent.
  - rewrite filter_app, length_app, H3.
    destruct c as [k|]; simpl.
    + destruct Hcall as [-> [Hk _]]. unfold guardedByLoading. simpl.
      rewrite Hk. reflexivity.
    + rewrite Hcall. reflexivity.
  - apply Forall_app. split; [now apply Forall_pinned_idle|].
    destruct c as [k|]; simpl; [|constructor].
    constructor; [tauto | constructor].
  - apply Forall_app. split; [exact H5|].
    destruct c as [k|]; simpl; [|constructor].
    constructor; [tauto | constructor].
  - intros s Hs. rewrite filter_app, length_app, (H7 s Hs).
    destruct c as [k|]; simpl; lia.
  - intros Hdeps Hreview.
    rewrite depsChanged_same_step in Hdeps; [discriminate | now apply Hstay].
Qed.

(** A call of the page settles. *)
Lemma Invariant_settlePage (w : World) (i : nat) (f : Inflight) (resp : Response)
    (p1 : Wizard) (agentSet : bool) :
  Invariant w ->
  nth_error (inflight w) i = Some f ->
  settlePage (call f) resp (page w) = Some (p1, agentSet) ->
  Invariant
    (commit agentSet (page w)
       (mkWorld p1 (review w) (mounts w) (removeAt i (inflight w)))).
Proof.
  intros [H1 H2 H3 H4 H5 H6 H7] Hnth Hsettle.
  assert (Hpin := Forall_nth_error _ H4 Hnth).
  assert (Hask : forall s, review w = Some s ->
            askedBy (mounts w) f = false ->
            List.length (filter (askedBy (mounts w)) (removeAt i (inflight w)))
            = if ReviewStep.qaLoading s then 1 else 0).
  { intros s Hs Hf. rewrite <- (H7 s Hs).
    rewrite (filter_length_removeAt (askedBy (mounts w)) _ i Hnth), Hf. lia. }
  assert (Hguarded : guardedByLoading f = true ->
            loading (page w) = true
            /\ List.length (filter guardedByLoading (removeAt i (inflight w))) = 0).
  { now apply loading_of_guarded. }
  assert (Hunguarded : guardedByLoading f = false ->
            List.length (filter guardedByLoading (removeAt i (inflight w)))
            = if loading (page w) then 1 else 0).
  { intros Hf. rewrite <- H3.
    rewrite (filter_length_removeAt guardedByLoading _ i Hnth), Hf. lia. }
  assert (Hown := Forall_nth_error _ H5 Hnth).
  assert (Hnotask : forall s, review w = Some s ->
            match call f with askAgent _ _ => False | _ => True end ->
            List.length (filter (askedBy (mounts w)) (removeAt i (inflight w)))
            = if ReviewStep.qaLoading s then 1 else 0).
  { intros s Hs Hc. apply Hask; [exact Hs|].
    unfold askedBy. unfold wellOwned in Hown.
    destruct (owner f); [reflexivity|]. destruct (call f); contradiction. }
  unfold pinned in Hpin. unfold guardedByLoading in Hguarded, Hunguarded.
  destruct (call f) eqn:Hc; destruct resp as [r|r|r|r|r]; simpl in Hsettle;
    try discriminate; injection Hsettle as <- <-;
    simpl in Hguarded, Hunguarded;
    try (destruct (Hguarded eq_refl) as [Hbusy Hnone]);
    try (specialize (Hunguarded eq_refl));
    destruct r as [data|err];
    apply Invariant_commit;
    try (now apply Forall_removeAt);
    try (now apply Forall_pinned_idle);
    try (intros s Hs; apply (Hnotask s Hs); exact I);
    simpl activeStep; simpl agent; simpl loading;
    try assumption; try reflexivity; try discriminate;
    try (rewrite Hnone; reflexivity);
    try (intros; reflexivity);
    try (vm_compute; tauto);
    try (apply Forall_pinned_same_step with (p := page w);
         [reflexivity | now apply Forall_removeAt]);
    try (intros Hdeps _; rewrite depsChanged_same_step in Hdeps;
         [discriminate | reflexivity]).
  all: try (intros _; apply H2; rewrite Hpin; intros Habs; vm_compute in Habs;
            discriminate).
Qed.

(** A call of a review step settles. *)
Lemma Invariant_settleReview (w : World) (i : nat) (f : Inflight) (k : nat)
    (resp : Response) (r : option ReviewStep.State) :
  Invariant w ->
  nth_error (inflight w) i = Some f ->
  owner f = Review k ->
  settleReview k (call f) resp w = Some r ->
  Invariant (mkWorld (page w) r (mounts w) (removeAt i (inflight w))).
Proof.
  intros [H1 H2 H3 H4 H5 H6 H7] Hnth Hk Hsettle.
  unfold settleReview in Hsettle.
  destruct (call f) eqn:Hc; try discriminate.
  destruct resp as [?|?|?|?|res]; try discriminate.
  injection Hsettle as <-.
  assert (Hf : guardedByLoading f = false).
  { unfold guardedByLoading. now rewrite Hc. }
  assert (Hasked : askedBy (mounts w) f = (k =? mounts w)).
  { unfold askedBy. now rewrite Hk. }
  constructor; cbn [page review mounts inflight]; try assumption.
  - rewrite <- H3.
    rewrite (filter_length_removeAt guardedByLoading _ i Hnth), Hf. lia.
  - now apply Forall_removeAt.
  - now apply Forall_removeAt.
  - rewrite <- H6. destruct (review w); [destruct (k =? mounts w)|];
      split; congruence.
  - intros s Hs. destruct (review w) as [s0|] eqn:Hr; [|discriminate].
    specialize (H7 s0 eq_refl).
    rewrite (filter_length_removeAt (askedBy (mounts w)) _ i Hnth), Hasked in H7.
    destruct (k =? mounts w); injection Hs as <-.
    + simpl. destruct (ReviewStep.qaLoading s0); lia.
    + rewrite <- H7. lia.
Qed.

(** A click on an enabled Ask button. *)
Lemma Invariant_ask (w : World) (s : ReviewStep.State) (d : AgentDefinition.t) :
  Invariant w ->
  review w = Some s ->
  ReviewStep.askDisabled (ReviewStep.agentId (Some d)) s = false ->
  Invariant
    (let '(s', c) := ReviewStep.onAsk (ReviewStep.agentId (Some d)) s in
     mkWorld (page w) (Some s') (mounts w)
       (inflight w ++ issued (Review (mounts w)) c)).
Proof.
  intros [H1 H2 H3 H4 H5 H6 H7] Hr Hcan.
  unfold ReviewStep.askDisabled in Hcan. apply negb_false_iff in Hcan.
  unfold ReviewStep.canAsk in Hcan.
  apply andb_true_iff in Hcan. destruct Hcan as [Hcan Hidle].
  apply andb_true_iff in Hcan. destruct Hcan as [Hid _].
  apply negb_true_iff in Hidle.
  unfold ReviewStep.onAsk. simpl ReviewStep.agentId in *. rewrite Hid.
  specialize (H7 s Hr). rewrite Hidle in H7.
  constructor; cbn [page review mounts inflight issued]; try assumption.
  - rewrite filter_app, length_app. simpl. lia.
  - apply Forall_app. split; [exact H4 | repeat constructor].
  - apply Forall_app. split; [exact H5|].
    constructor; [|constructor]. unfold wellOwned. simpl. lia.
  - rewrite <- H6, Hr. split; congruence.
  - intros s' [= <-]. rewrite filter_app, length_app, H7. simpl.
    unfold askedBy. simpl. now rewrite Nat.eqb_refl.
Qed.

Ltac on_step H :=
  unfold onStep in H; apply jsstring_eqb_eq in H.

(** Every event keeps the invariant. *)
Theorem Invariant_dispatch (e : Event) (w w' : World) :
  Invariant w -> dispatch e w = Some w' -> Invariant w'.
Proof.
  intros Hinv Hstep. pose proof Hinv as [H1 H2 H3 H4 H5 H6 H7].
  destruct e; unfold dispatch in Hstep.
  - (* ChangeName *)
    destruct (onStep "metadata" w); [|discriminate]. injection Hstep as <-.
    now apply Invariant_withPage.
  - destruct (onStep "metadata" w); [|discriminate]. injection Hstep as <-.
    now apply Invariant_withPage.
  - destruct (onStep "metadata" w); [|discriminate]. injection Hstep as <-.
    now apply Invariant_withPage.
  - destruct (onStep "metadata" w && _); [|discriminate]. injection Hstep as <-.
    now apply Invariant_withPage.
  - (* ClickNextTools *)
    destruct (onStep "metadata" w) eqn:Hon; [|discriminate]. on_step Hon.
    unfold MetadataStep_nextDisabled in Hstep.
    destruct (loading (page w)) eqn:Hidle;
      [rewrite orb_true_r in Hstep; discriminate|].
    destruct (isMetadataValid _); simpl in Hstep; [|discriminate].
    injection Hstep as <-.
    eapply Invariant_click; [exact Hinv | exact Hidle | reflexivity | ..];
      simpl; try assumption.
    + repeat split; assumption.
    + intros _. reflexivity.
  - (* ChangeToolChecked *)
    destruct (onStep "tools" w && _); [|discriminate]. injection Hstep as <-.
    now apply Invariant_withPage.
  - (* ClickNextPolicies *)
    destruct (onStep "tools" w) eqn:Hon; [|discriminate]. on_step Hon.
    unfold ToolsStep_nextDisabled in Hstep.
    destruct (loading (page w)) eqn:Hidle; [discriminate|]. simpl in Hstep.
    injection Hstep as <-.
    destruct (agent (page w)) as [a|] eqn:Ha.
    + eapply Invariant_click;
        [exact Hinv | exact Hidle
         | unfold handleSaveTools; rewrite Ha; reflexivity | ..];
        simpl; try assumption.
      * now rewrite Ha.
      * repeat split; assumption.
      * intros _. reflexivity.
    + eapply Invariant_click;
        [exact Hinv | exact Hidle
         | unfold handleSaveTools; rewrite Ha; reflexivity | ..];
        simpl; try assumption.
      * now rewrite Ha.
      * intros _. reflexivity.
  - (* ChangeFrequencyLimit *)
    destruct (onStep "policies" w); [|discriminate]. injection Hstep as <-.
    now apply Invariant_withPage.
  - destruct (onStep "policies" w); [|discriminate]. injection Hstep as <-.
    now apply Invariant_withPage.
  - (* ClickNextReview *)
    destruct (onStep "policies" w) eqn:Hon; [|discriminate]. on_step Hon.
    unfold PolicyStep_nextDisabled in Hstep.
    destruct (loading (page w)) eqn:Hidle; [discriminate|]. simpl in Hstep.
    injection Hstep as <-.
    destruct (handleSavePolicy (page w)) as [p1 c] eqn:Hh.
    pose proof Hh as Hh'. unfold handleSavePolicy in Hh'.
    destruct (agent (page w)) as [a|] eqn:Ha;
      [destruct (_ && _) in Hh';
       [|destruct (match PolicyCreate.frequency_limit _ with Some _ => _ | None => _ end) in Hh']|];
      injection Hh' as <- <-;
      (eapply Invariant_click; [exact Hinv | exact Hidle | exact Hh | ..];
       simpl; try assumption; [ now rewrite Ha | .. ]);
      try (repeat split; assumption); try (intros _; reflexivity);
      try reflexivity.
  - (* ClickBack *)
    unfold backDisabled in Hstep.
    destruct (loading (page w)) eqn:Hidle; [discriminate|].
    assert (Hag : agent (page w) <> None \/ activeStep (page w) = lit "metadata").
    { destruct (activeStep (page w) === lit "metadata") eqn:E.
      - right. now apply jsstring_eqb_eq.
      - left. apply H2. now apply jsstring_eqb_neq. }
    destruct (onStep "tools" w) eqn:Hon1;
      [|destruct (onStep "policies" w) eqn:Hon2;
        [|destruct (onStep "review" w) eqn:Hon3; [|discriminate]]];
      injection Hstep as <-;
      match goal with H : onStep _ _ = true |- _ => on_step H end;
      (eapply Invariant_click with (c := None);
       [ exact Hinv | exact Hidle | reflexivity | .. ]);
      simpl; try assumption; try (vm_compute; tauto);
      try (intros Habs; vm_compute in Habs; discriminate).
    all: intros _; destruct Hag as [Hag | Hag]; [exact Hag|].
    all: match goal with H : activeStep _ = lit _ |- _ =>
           rewrite H in Hag; vm_compute in Hag; discriminate end.
  - (* ChangeQuestion *)
    destruct (review w) as [s|] eqn:Hr; [|discriminate].
    destruct (agentDefinition (page w)) as [d|]; [|discriminate].
    destruct (ReviewStep.hasAgentId _); [|discriminate].
    injection Hstep as <-.
    constructor; cbn [page review mounts inflight]; try assumption.
    + rewrite <- H6. split; congruence.
    + intros s' [= <-]. simpl. exact (H7 s eq_refl).
  - (* ClickAsk *)
    destruct (review w) as [s|] eqn:Hr; [|discriminate].
    destruct (agentDefinition (page w)) as [d|]; [|discriminate].
    destruct (ReviewStep.askDisabled _ s) eqn:Hdis; [discriminate|].
    pose proof (Invariant_ask d Hinv Hr Hdis) as Hask.
    destruct (ReviewStep.onAsk _ s) as [s' c]. injection Hstep as <-.
    exact Hask.
  - (* Settle *)
    destruct (nth_error (inflight w) i) as [f|] eqn:Hnth; [|discriminate].
    destruct (owner f) as [|k] eqn:Hk.
    + destruct (settlePage (call f) resp (page w)) as [[p1 agentSet]|] eqn:Hs;
        [|discriminate].
      injection Hstep as <-. eapply Invariant_settlePage; eassumption.
    + destruct (settleReview k (call f) resp w) as [r|] eqn:Hs; [|discriminate].
      injection Hstep as <-. eapply Invariant_settleReview; eassumption.
Qed.

Lemma Invariant_run (events : list Event) (w w' : World) :
  Invariant w -> run events w = Some w' -> Invariant w'.
Proof.
  revert w. induction events as [|e events IH]; simpl; intros w Hinv Hrun.
  - now injection Hrun as <-.
  - destruct (dispatch e w) as [w1|] eqn:He; [|discriminate].
    apply (IH w1); [|exact Hrun]. eapply Invariant_dispatch; eassumption.
Qed.

Theorem reachable_Invariant (w : World) : reachable w -> Invariant w.
Proof.
  intros [events Hrun]. eapply Invariant_run; [apply Invariant_initial | exact Hrun].
Qed.

(** ** What a render changes *)

Lemma commit_page (agentSet : bool) (p0 : Wizard) (w1 : World) :
  page (commit agentSet p0 w1)
  = if depsChanged agentSet p0 (page w1) then fst (stepEffect (page w1))
    else page w1.
Proof.
  unfold commit. destruct (remount _ _ _). destruct (depsChanged _ _ _).
  - destruct (stepEffect (page w1)). reflexivity.
  - reflexivity.
Qed.

Lemma commit_inflight (agentSet : bool) (p0 : Wizard) (w1 : World) :
  inflight (commit agentSet p0 w1)
  = inflight w1
    ++ map (mkInflight Page)
         (if depsChanged agentSet p0 (page w1) then snd (stepEffect (page w1))
          else []).
Proof.
  unfold commit. destruct (remount _ _ _). destruct (depsChanged _ _ _).
  - destruct (stepEffect (page w1)). reflexivity.
  - reflexivity.
Qed.

(** The effect only clears the error, raises [loading] on the review step,
    and starts reads. *)
Lemma stepEffect_frame (p : Wizard) :
  let p' := fst (stepEffect p) in
  activeStep p' = activeStep p
  /\ agent p' = agent p /\ agentDefinition p' = agentDefinition p
  /\ availableTools p' = availableTools p
  /\ selectedToolIds p' = selectedToolIds p /\ policy p' = policy p
  /\ metadataForm p' = metadataForm p /\ policyForm p' = policyForm p
  /\ (error p' = error p \/ error p' = emptyLit)
  /\ (activeStep p <> lit "review" -> loading p' = loading p)
  /\ forallb isRead (map (mkInflight Page) (snd (stepEffect p))) = true.
Proof.
  unfold stepEffect.
  destruct ((activeStep p === lit "tools") && _);
    destruct (activeStep p === lit "policies");
    destruct (activeStep p === lit "review") eqn:E;
    destruct (agent p) eqn:Ha; simpl; rewrite ?Ha; repeat split; auto;
    intros H; apply jsstring_eqb_eq in E; contradiction.
Qed.

Lemma commit_activeStep (agentSet : bool) (p0 : Wizard) (w1 : World) :
  activeStep (page (commit agentSet p0 w1)) = activeStep (page w1).
Proof.
  rewrite commit_page. destruct (depsChanged _ _ _); [|reflexivity].
  apply stepEffect_frame.
Qed.

(** A click whose handler keeps the step: nothing but the handler's own
    updates and its call, if any, happens. *)
Lemma click_same_step (handler : Wizard -> Wizard * option Call) (w : World)
    (p1 : Wizard) (c : option Call) :
  handler (page w) = (p1, c) ->
  activeStep p1 = activeStep (page w) ->
  page (click handler w) = p1
  /\ inflight (click handler w) = inflight w ++ issued Page c.
Proof.
  intros Hrun Hstep. unfold click. rewrite Hrun.
  rewrite commit_page, commit_inflight. cbn [page inflight].
  rewrite (depsChanged_same_step _ _ Hstep). simpl.
  now rewrite app_nil_r.
Qed.

(** ** The claims *)

Lemma reachable_after (events : list Event) (w : World) :
  run events initialWorld = Some w -> reachable w.
Proof. intros H. now exists events. Qed.

Lemma submit_settles (w : World) (i : nat) (f : Inflight) (resp : Response)
    (p1 : Wizard) (agentSet : bool) :
  Invariant w ->
  nth_error (inflight w) i = Some f ->
  raisesLoading (call f) = true ->
  settlePage (call f) resp (page w) = Some (p1, agentSet) ->
  exists w' : World,
    dispatch (Settle i resp) w = Some w'
    /\ activeStep (page w') = activeStep p1
    /\ (depsChanged agentSet (page w) p1 = false -> page w' = p1).
Proof.
  intros Hinv Hnth Hguard Hsettle.
  assert (Hown := Forall_nth_error _ (inv_owned Hinv) Hnth).
  unfold wellOwned in Hown.
  assert (Hpage : owner f = Page).
  { destruct (owner f); [reflexivity|].
    destruct (call f); try contradiction; discriminate. }
  eexists. unfold dispatch. rewrite Hnth, Hpage, Hsettle.
  split; [reflexivity|]. split.
  - apply commit_activeStep.
  - intros Hdeps. rewrite commit_page. cbn [page]. now rewrite Hdeps.
Qed.

(** C1, as amended.  When the call of a submit handler (create agent, save
    tools, save policy) settles, the page reacts: on success the active step
    becomes the key that follows it in [steps]; on failure the active step is
    unchanged and the error is the backend's detail, or the handler's fallback
    when there is none, which the banner shows unless it is the empty
    string. *)
Theorem C1_submit_outcome (w : World) (i : nat) (f : Inflight)
    (Hreach : reachable w) (Hnth : nth_error (inflight w) i = Some f) :
  (forall (payload : AgentCreate.t) (r : Result Agent.t),
      call f = createAgent payload ->
      exists w' : World,
        dispatch (Settle i (AgentResponse r)) w = Some w'
        /\ submitOutcome (lit "Unable to create agent. Check inputs.") r w w')
  /\ (forall (agentId : Z) (toolIds : list Z) (r : Result (list Tool.t)),
        call f = setAgentTools agentId toolIds ->
        exists w' : World,
          dispatch (Settle i (ToolsResponse r)) w = Some w'
          /\ submitOutcome (lit "Failed to save tools.") r w w')
  /\ (forall (agentId : Z) (payload : PolicyCreate.t) (r : Result Policy.t),
        call f = setPolicy agentId payload ->
        exists w' : World,
          dispatch (Settle i (PolicyResponse r)) w = Some w'
          /\ submitOutcome (lit "Failed to save policy.") r w w').
Proof.
  pose proof (reachable_Invariant Hreach) as Hinv.
  assert (Hpin := Forall_nth_error _ (inv_pinned Hinv) Hnth).
  assert (Hbanner : forall e : jsstring,
            errorBanner e = if e === emptyLit then None else Some e).
  { intros [|c e]; reflexivity. }
  unfold pinned in Hpin.
  split; [intros ? r Hcall | split; intros ? ? r Hcall]; rewrite Hcall in Hpin.
  - destruct (@submit_settles w i f (AgentResponse r)
                (handleCreateAgent_settled r (page w)) (isResolved r))
      as [w' [Hstep [Hkey Hpage]]];
      [exact Hinv | exact Hnth | now rewrite Hcall | now rewrite Hcall |].
    exists w'. split; [exact Hstep|].
    destruct r as [data|err]; unfold submitOutcome.
    + rewrite Hkey, Hpin. reflexivity.
    + rewrite Hpage by (apply depsChanged_same_step; reflexivity).
      split; [reflexivity|]. split; [reflexivity|]. apply Hbanner.
  - destruct (@submit_settles w i f (ToolsResponse r)
                (handleSaveTools_settled r (page w)) false)
      as [w' [Hstep [Hkey Hpage]]];
      [exact Hinv | exact Hnth | now rewrite Hcall | now rewrite Hcall |].
    exists w'. split; [exact Hstep|].
    destruct r as [data|err]; unfold submitOutcome.
    + rewrite Hkey, Hpin. reflexivity.
    + rewrite Hpage by (apply depsChanged_same_step; reflexivity).
      split; [reflexivity|]. split; [reflexivity|]. apply Hbanner.
  - destruct (@submit_settles w i f (PolicyResponse r)
                (handleSavePolicy_settled r (page w)) false)
      as [w' [Hstep [Hkey Hpage]]];
      [exact Hinv | exact Hnth | now rewrite Hcall | now rewrite Hcall |].
    exists w'. split; [exact Hstep|].
    destruct r as [data|err]; unfold submitOutcome.
    + rewrite Hkey, Hpin. reflexivity.
    + rewrite Hpage by (apply depsChanged_same_step; reflexivity).
      split; [reflexivity|]. split; [reflexivity|]. apply Hbanner.
Qed.

Lemma C1_submit_outcome_witness :
  exists w' : World,
    dispatch (Settle 0 (AgentResponse (Resolved sampleAgent)))
      (worldAfter sessionCreating) = Some w'
    /\ nextKey (lit "metadata") steps = Some (activeStep (page w')).
Proof.
  exact (proj1 (@C1_submit_outcome (worldAfter sessionCreating) 0
                  (mkInflight Page
                     (createAgent (metadataForm (page (worldAfter sessionCreating)))))
                  (reachable_after sessionCreating eq_refl) eq_refl)
           _ (Resolved sampleAgent) eq_refl).
Defined.

(** C1, as stated, fails when the backend rejects [createAgent] with an empty
    detail: the step is kept and no error message is displayed. *)
Lemma C1_counterexample :
  let err :=
    mkApiError (Some emptyLit) (Some (lit "Request failed with status code 400")) in
  let w := worldAfter sessionCreating in
  run sessionCreating initialWorld = Some w
  /\ exists w' : World,
       dispatch (Settle 0 (AgentResponse (Rejected err))) w = Some w'
       /\ activeStep (page w') = activeStep (page w)
       /\ errorBanner (error (page w')) = None.
Proof.
  intros err w. split; [vm_compute; reflexivity|].
  eexists. split; [vm_compute; reflexivity|].
  split; vm_compute; reflexivity.
Qed.

(** C2, as amended.  The Next button of the metadata step is disabled exactly
    when the validity predicate fails or a request is loading; the predicate
    holds exactly when the trimmed name is non-empty, the trimmed description
    has at least 10 code units, the trimmed purpose at least 5, and the trimmed
    model is non-empty; and the click is possible exactly on the metadata step
    with the button enabled. *)
Theorem C2_next_disabled_iff_invalid_or_loading :
  forall (form : AgentCreate.t) (busy : bool),
    (MetadataStep_nextDisabled (isMetadataValid form) busy = true
     <-> isMetadataValid form = false \/ busy = true)
    /\ (isMetadataValid form = true
        <-> trim (AgentCreate.name form) <> []
            /\ 10 <= List.length (trim (AgentCreate.description form))
            /\ 5 <= List.length (trim (AgentCreate.purpose form))
            /\ trim (AgentCreate.model form) <> [])
    /\ (forall w : World,
          dispatch ClickNextTools w <> None
          <-> onStep "metadata" w = true
              /\ MetadataStep_nextDisabled
                   (isMetadataValid (metadataForm (page w))) (loading (page w))
                 = false).
Proof.
  intros form busy. split; [|split].
  - unfold MetadataStep_nextDisabled.
    rewrite orb_true_iff, negb_true_iff. reflexivity.
  - unfold isMetadataValid.
    rewrite !andb_true_iff, !Nat.ltb_lt, !Nat.leb_le, !nonempty_length.
    tauto.
  - intros w. unfold dispatch.
    destruct (onStep "metadata" w); simpl.
    + destruct (MetadataStep_nextDisabled _ _); simpl; split;
        try congruence; try tauto; intros [_ H]; congruence.
    + split; [congruence | intros [H _]; congruence].
Qed.

(** C2, as stated, fails while [createAgent] is in flight: the form is valid
    and the button is disabled. *)
Lemma C2_counterexample :
  run sessionCreating initialWorld = Some (worldAfter sessionCreating)
  /\ let p := page (worldAfter sessionCreating) in
     activeStep p = lit "metadata"
     /\ isMetadataValid (metadataForm p) = true
     /\ MetadataStep_nextDisabled (isMetadataValid (metadataForm p)) (loading p)
        = true.
Proof. vm_compute. repeat split. Qed.

Lemma positive_not_le_zero (limit : number) :
  (0 < limit)%Q -> Qle_bool limit 0 = false.
Proof.
  intros Hlt. destruct (Qle_bool limit 0) eqn:E; [|reflexivity].
  apply Qle_bool_iff in E. exfalso. exact (Qlt_not_le _ _ Hlt E).
Qed.

(** C3, as amended.  On the policies step, unless approval is required for
    all tool calls while no tool is selected, a click on Next with a frequency
    limit that is present and at most 0 only sets the error to the frequency
    message, which the banner shows: no call is issued and nothing else
    changes; with an absent or positive limit the handler goes on to
    [setPolicy]; and whatever the page state, an absent or positive limit
    never yields the frequency message. *)
Theorem C3_frequency_limit_guard (w : World)
    (Hreach : reachable w)
    (Hstep : activeStep (page w) = lit "policies")
    (Hidle : loading (page w) = false)
    (Husable :
       PolicyCreate.require_approval_for_all_tool_calls (policyForm (page w))
       = false
       \/ selectedToolIds (page w) <> []) :
  let msg := lit "Frequency limit must be positive when provided." in
  (forall limit : number,
      PolicyCreate.frequency_limit (policyForm (page w)) = Some limit ->
      (limit <= 0)%Q ->
      exists w' : World,
        dispatch ClickNextReview w = Some w'
        /\ page w' = setError msg (page w)
        /\ sameExceptError (page w) (page w')
        /\ errorBanner (error (page w')) = Some msg
        /\ inflight w' = inflight w)
  /\ (PolicyCreate.frequency_limit (policyForm (page w)) = None
      \/ (exists limit : number,
             PolicyCreate.frequency_limit (policyForm (page w)) = Some limit
             /\ (0 < limit)%Q) ->
      exists (w' : World) (a : Agent.t),
        dispatch ClickNextReview w = Some w'
        /\ agent (page w) = Some a
        /\ page w' = setLoading true (setError emptyLit (page w))
        /\ inflight w'
           = inflight w
             ++ [mkInflight Page (setPolicy (Agent.id a) (policyForm (page w)))])
  /\ (forall p : Wizard,
        PolicyCreate.frequency_limit (policyForm p) = None
        \/ (exists limit : number,
               PolicyCreate.frequency_limit (policyForm p) = Some limit
               /\ (0 < limit)%Q) ->
        error (fst (handleSavePolicy p)) <> msg).
Proof.
  intros msg. pose proof (reachable_Invariant Hreach) as Hinv.
  assert (Hagent : agent (page w) <> None).
  { apply (inv_agent Hinv). rewrite Hstep. intros H. vm_compute in H.
    discriminate. }
  destruct (agent (page w)) as [a|] eqn:Ha; [|congruence].
  assert (Hwarn :
    PolicyCreate.require_approval_for_all_tool_calls (policyForm (page w))
    && (List.length (selectedToolIds (page w)) =? 0) = false).
  { destruct Husable as [-> | Hsel]; [reflexivity|].
    destruct (selectedToolIds (page w)); [congruence|].
    simpl. apply andb_false_r. }
  assert (Hclick : dispatch ClickNextReview w = Some (click handleSavePolicy w)).
  { unfold dispatch, onStep, PolicyStep_nextDisabled.
    now rewrite Hstep, Hidle. }
  split; [|split].
  - intros limit Hlimit Hle.
    assert (Hhandler : handleSavePolicy (page w) = (setError msg (page w), None)).
    { unfold handleSavePolicy. rewrite Ha, Hwarn, Hlimit.
      apply Qle_bool_iff in Hle. now rewrite Hle. }
    destruct (click_same_step handleSavePolicy w Hhandler eq_refl)
      as [Hpage Hcalls].
    simpl in Hcalls. rewrite app_nil_r in Hcalls.
    exists (click handleSavePolicy w). rewrite Hpage.
    split; [exact Hclick|]. split; [reflexivity|].
    split; [apply setError_frame|]. split; [reflexivity | exact Hcalls].
  - intros Hok.
    assert (Hhandler :
      handleSavePolicy (page w)
      = (setLoading true (setError emptyLit (page w)),
         Some (setPolicy (Agent.id a) (policyForm (page w))))).
    { unfold handleSavePolicy. rewrite Ha, Hwarn.
      destruct Hok as [-> | [limit [-> Hlt]]]; [reflexivity|].
      now rewrite (positive_not_le_zero Hlt). }
    destruct (click_same_step handleSavePolicy w Hhandler eq_refl)
      as [Hpage Hcalls].
    exists (click handleSavePolicy w), a.
    split; [exact Hclick|]. split; [reflexivity|].
    split; [exact Hpage | exact Hcalls].
  - intros p Hok. unfold handleSavePolicy.
    destruct (agent p); [|simpl; intros H; vm_compute in H; discriminate].
    destruct (PolicyCreate.require_approval_for_all_tool_calls (policyForm p) && _);
      [simpl; intros H; vm_compute in H; discriminate|].
    destruct Hok as [-> | [limit [-> Hlt]]].
    + simpl. intros H; vm_compute in H; discriminate.
    + rewrite (positive_not_le_zero Hlt). simpl.
      intros H; vm_compute in H; discriminate.
Qed.

Lemma C3_frequency_limit_guard_witness :
  exists w' : World,
    dispatch ClickNextReview (worldAfter sessionNegativeLimit) = Some w'
    /\ page w'
       = setError (lit "Frequency limit must be positive when provided.")
           (page (worldAfter sessionNegativeLimit))
    /\ sameExceptError (page (worldAfter sessionNegativeLimit)) (page w')
    /\ errorBanner (error (page w'))
       = Some (lit "Frequency limit must be positive when provided.")
    /\ inflight w' = inflight (worldAfter sessionNegativeLimit).
Proof.
  refine (proj1 (@C3_frequency_limit_guard (worldAfter sessionNegativeLimit)
                   _ _ _ _) (-1)%Q _ _).
  - apply (reachable_after sessionNegativeLimit). vm_compute. reflexivity.
  - vm_compute. reflexivity.
  - vm_compute. reflexivity.
  - left. vm_compute. reflexivity.
  - vm_compute. reflexivity.
  - vm_compute. discriminate.
Defined.

(** C3, as stated, fails when approval is required for all tool calls and no
    tool is selected: the limit is 0, and the error is the warning about the
    unusable agent, not the frequency message. *)
Lemma C3_counterexample :
  let w := worldAfter sessionUnusableZero in
  run sessionUnusableZero initialWorld = Some w
  /\ PolicyCreate.frequency_limit (policyForm (page w)) = Some 0%Q
  /\ exists w' : World,
       dispatch ClickNextReview w = Some w'
       /\ error (page w')
          = lit "Agent has no tools and all tool calls require approval - this agent will be unusable."
       /\ error (page w') <> lit "Frequency limit must be positive when provided.".
Proof.
  intros w. split; [vm_compute; reflexivity|]. split; [vm_compute; reflexivity|].
  eexists. split; [vm_compute; reflexivity|].
  split; [vm_compute; reflexivity|]. intros H. vm_compute in H. discriminate.
Qed.

(** C4.  On the policies step, with approval required for all tool calls and
    no tool selected, a click on Next only sets the error to the warning about
    the unusable agent, which the banner shows: no call is issued and the page
    stays on the policies step. *)
Theorem C4_unusable_agent_warning (w : World)
    (Hreach : reachable w)
    (Hstep : activeStep (page w) = lit "policies")
    (Hidle : loading (page w) = false)
    (Happroval :
       PolicyCreate.require_approval_for_all_tool_calls (policyForm (page w))
       = true)
    (Hnone : selectedToolIds (page w) = []) :
  let msg :=
    lit "Agent has no tools and all tool calls require approval - this agent will be unusable." in
  exists w' : World,
    dispatch ClickNextReview w = Some w'
    /\ page w' = setError msg (page w)
    /\ errorBanner (error (page w')) = Some msg
    /\ inflight w' = inflight w
    /\ activeStep (page w') = lit "policies".
Proof.
  intros msg. pose proof (reachable_Invariant Hreach) as Hinv.
  assert (Hagent : agent (page w) <> None).
  { apply (inv_agent Hinv). rewrite Hstep. intros H. vm_compute in H.
    discriminate. }
  destruct (agent (page w)) as [a|] eqn:Ha; [|congruence].
  assert (Hhandler : handleSavePolicy (page w) = (setError msg (page w), None)).
  { unfold handleSavePolicy. now rewrite Ha, Happroval, Hnone. }
  destruct (click_same_step handleSavePolicy w Hhandler eq_refl)
    as [Hpage Hcalls].
  simpl in Hcalls. rewrite app_nil_r in Hcalls.
  exists (click handleSavePolicy w). split.
  - unfold dispatch, onStep, PolicyStep_nextDisabled.
    now rewrite Hstep, Hidle.
  - rewrite Hpage. repeat split; [exact Hcalls | exact Hstep].
Qed.

Lemma C4_unusable_agent_warning_witness :
  exists w' : World,
    dispatch ClickNextReview (worldAfter sessionUnusable) = Some w'
    /\ page w'
       = setError
           (lit "Agent has no tools and all tool calls require approval - this agent will be unusable.")
           (page (worldAfter sessionUnusable))
    /\ errorBanner (error (page w'))
       = Some (lit "Agent has no tools and all tool calls require approval - this agent will be unusable.")
    /\ inflight w' = inflight (worldAfter sessionUnusable)
    /\ activeStep (page w') = lit "policies".
Proof.
  apply C4_unusable_agent_warning.
  - apply (reachable_after sessionUnusable). vm_compute. reflexivity.
  - vm_compute. reflexivity.
  - vm_compute. reflexivity.
  - vm_compute. reflexivity.
  - vm_compute. reflexivity.
Defined.

(** C5, as amended.  After a failed submit call the error is the backend's
    detail when there is one (even an empty one) and the handler's fallback
    otherwise; after a failed fetch it is the fetcher's fixed string whatever
    the backend sent; after a failed question it is the detail if non-empty,
    else the error's message if non-empty, else a fallback; and the banner
    shows the error string as it is, unless it is empty. *)
Theorem C5_error_strings :
  forall (err : ApiError) (w : Wizard) (s : ReviewStep.State),
    error (handleCreateAgent_settled (Rejected err) w)
    = match detail err with
      | Some d => d
      | None => lit "Unable to create agent. Check inputs."
      end
    /\ error (handleSaveTools_settled (Rejected err) w)
       = match detail err with
         | Some d => d
         | None => lit "Failed to save tools."
         end
    /\ error (handleSavePolicy_settled (Rejected err) w)
       = match detail err with
         | Some d => d
         | None => lit "Failed to save policy."
         end
    /\ error (fetchTools_settled (Rejected err) w)
       = lit "Failed to load tools. Please try again."
    /\ error (fetchSelectedTools_settled (Rejected err) w)
       = lit "Failed to load selected tools."
    /\ error (fetchDefinition_settled (Rejected err) w)
       = lit "Unable to fetch agent definition. Ensure policy is configured."
    /\ ReviewStep.qaError (ReviewStep.onAsk_settled (Rejected err) s)
       = Some match detail err, message err with
              | Some (c :: d), _ => c :: d
              | _, Some (c :: m) => c :: m
              | _, _ => lit "Failed to get an answer"
              end
    /\ (forall e : jsstring,
          errorBanner e = if e === emptyLit then None else Some e).
Proof.
  intros [d m] w s.
  split; [reflexivity|]. split; [reflexivity|]. split; [reflexivity|].
  split; [reflexivity|]. split; [reflexivity|]. split; [reflexivity|].
  split.
  - destruct d as [[|c d]|]; destruct m as [[|c' m]|]; reflexivity.
  - intros [|c e]; reflexivity.
Qed.

(** C5, as stated, fails for the fetchers: [getTools] is rejected with a
    detail and a message, and the banner shows neither. *)
Lemma C5_counterexample :
  let err :=
    mkApiError (Some (lit "Service unavailable"))
      (Some (lit "Request failed with status code 503")) in
  let w := worldAfter sessionTools in
  run sessionTools initialWorld = Some w
  /\ exists w' : World,
       dispatch (Settle 0 (ToolsResponse (Rejected err))) w = Some w'
       /\ errorBanner (error (page w'))
          = Some (lit "Failed to load tools. Please try again.")
       /\ errorBanner (error (page w')) <> detail err
       /\ errorBanner (error (page w')) <> message err.
Proof.
  intros err w. split; [vm_compute; reflexivity|].
  eexists. split; [vm_compute; reflexivity|].
  split; [vm_compute; reflexivity|].
  split; intros H; vm_compute in H; discriminate.
Qed.

(** C6.  Checking a tool appends its id and unchecking filters it out: for an
    id that is not in the list, unchecking after checking gives the list back
    and unchecking alone changes nothing; unchecking is idempotent and leaves
    no occurrence; a tool is rendered checked exactly when its id is in the
    list. *)
Theorem C6_select_then_deselect (l : list Z) (toolId : Z)
    (Habsent : ~ In toolId l) :
  onToolChange true toolId l = l ++ [toolId]
  /\ onToolChange false toolId (onToolChange true toolId l) = l
  /\ onToolChange false toolId l = l
  /\ (forall (l' : list Z) (t : Z),
        onToolChange false t (onToolChange false t l') = onToolChange false t l'
        /\ ~ In t (onToolChange false t l'))
  /\ (forall (l' : list Z) (tool : Tool.t),
        checked l' tool = true <-> In (Tool.id tool) l').
Proof.
  simpl. repeat split.
  - unfold selectTool, deselectTool. rewrite filter_app. simpl.
    rewrite Z.eqb_refl. simpl. rewrite app_nil_r.
    now apply deselectTool_absent.
  - now apply deselectTool_absent.
  - apply deselectTool_absent, deselectTool_removes.
  - apply deselectTool_removes.
  - apply includes_In.
  - apply includes_In.
Qed.

Lemma C6_select_then_deselect_witness :
  onToolChange false 5 (onToolChange true 5 [3; 8]%Z) = [3; 8]%Z.
Proof.
  refine (proj1 (proj2 (C6_select_then_deselect [3; 8]%Z 5 _))).
  simpl. intros [H | [H | H]]; [discriminate | discriminate | exact H].
Defined.

(** C7, as amended.  In every state of the page, at most one of the calls
    whose handler raises [loading] (create agent, save tools, save policy,
    fetch definition) is in flight, and [loading] is true exactly while one
    is; the mounted review step has at most one question of its own in flight,
    and its [qaLoading] is true exactly while it has one; while [loading] is
    true the three Next buttons and Back do nothing, and while [qaLoading] is
    true Ask does nothing.  The handlers of those four calls raise [loading]
    before they issue the call; [fetchTools] and [fetchSelectedTools] issue
    theirs without touching [loading]. *)
Theorem C7_one_call_per_flag (w : World) (Hreach : reachable w) :
  List.length (filter guardedByLoading (inflight w))
  = (if loading (page w) then 1 else 0)
  /\ (forall s : ReviewStep.State,
        review w = Some s ->
        List.length (filter (askedBy (mounts w)) (inflight w))
        = if ReviewStep.qaLoading s then 1 else 0)
  /\ (loading (page w) = true ->
      dispatch ClickNextTools w = None /\ dispatch ClickNextPolicies w = None
      /\ dispatch ClickNextReview w = None /\ dispatch ClickBack w = None)
  /\ (forall s : ReviewStep.State,
        review w = Some s -> ReviewStep.qaLoading s = true ->
        dispatch ClickAsk w = None)
  /\ (forall p : Wizard,
        loading (fst (handleCreateAgent p)) = true
        /\ (snd (handleSaveTools p) <> None ->
            loading (fst (handleSaveTools p)) = true)
        /\ (snd (handleSavePolicy p) <> None ->
            loading (fst (handleSavePolicy p)) = true)
        /\ (forall agentId : Z, loading (fst (fetchDefinition agentId p)) = true)
        /\ loading (fst (fetchTools p)) = loading p
        /\ (forall agentId : Z,
              loading (fst (fetchSelectedTools agentId p)) = loading p)).
Proof.
  pose proof (reachable_Invariant Hreach) as Hinv.
  split; [exact (inv_loading Hinv)|]. split; [exact (inv_asking Hinv)|].
  split; [|split].
  - intros Hbusy. unfold dispatch, MetadataStep_nextDisabled,
      ToolsStep_nextDisabled, PolicyStep_nextDisabled, backDisabled.
    rewrite Hbusy, orb_true_r. simpl. rewrite !andb_false_r. repeat split.
  - intros s Hs Hbusy. unfold dispatch. rewrite Hs.
    destruct (agentDefinition (page w)); [|reflexivity].
    unfold ReviewStep.askDisabled, ReviewStep.canAsk.
    rewrite Hbusy. simpl. now rewrite andb_false_r.
  - intros p. split; [reflexivity|]. split; [|split; [|repeat split]].
    + unfold handleSaveTools. destruct (agent p); simpl; congruence.
    + unfold handleSavePolicy. destruct (agent p); [|simpl; congruence].
      destruct (_ && _); [simpl; congruence|].
      destruct (match PolicyCreate.frequency_limit _ with Some _ => _ | None => _ end);
        simpl; congruence.
Qed.

Lemma C7_one_call_per_flag_witness :
  loading (page (worldAfter sessionCreating)) = true
  /\ List.length (filter guardedByLoading (inflight (worldAfter sessionCreating)))
     = 1.
Proof.
  split; [vm_compute; reflexivity|].
  rewrite (proj1 (@C7_one_call_per_flag (worldAfter sessionCreating)
                    (reachable_after sessionCreating eq_refl))).
  vm_compute. reflexivity.
Defined.

(** C7, as stated, fails: a question is in flight when the user goes back to
    the policies step and submits it again, so two calls started by clicks are
    in flight together. *)
Lemma C7_counterexample :
  let w := worldAfter sessionOverlap in
  run sessionOverlap initialWorld = Some w
  /\ map call (inflight w)
     = [ askAgent 7 (AgentQARequest.mk (lit "What is an invoice?") None);
         setPolicy 7 (PolicyCreate.mk None false) ]
  /\ List.length (filter startedByClick (inflight w)) = 2.
Proof. vm_compute. repeat split. Qed.

Lemma back_press (w : World) (key : string) :
  lit key <> lit "review" ->
  let w' := click (fun p => (setActiveStep (lit key) p, None)) w in
  activeStep (page w') = lit key
  /\ keptByBack (page w) (page w')
  /\ (error (page w') = error (page w) \/ error (page w') = emptyLit)
  /\ exists calls : list Inflight,
       inflight w' = inflight w ++ calls /\ forallb isRead calls = true.
Proof.
  intros Hkey w'. subst w'. unfold click.
  rewrite commit_page, commit_inflight. cbn [page inflight issued].
  rewrite app_nil_r.
  destruct (depsChanged _ _ _).
  - pose proof (stepEffect_frame (setActiveStep (lit key) (page w))) as Hframe.
    simpl in Hframe.
    destruct Hframe as [H1 [H2 [H3 [H4 [H5 [H6 [H7 [H8 [H9 [H10 H11]]]]]]]]]].
    split; [exact H1|]. split.
    + unfold keptByBack. repeat split; auto.
    + split; [exact H9|]. eexists. split; [reflexivity | exact H11].
  - split; [reflexivity|]. split; [unfold keptByBack; repeat split|].
    split; [now left|]. exists []. split; [reflexivity | reflexivity].
Qed.

(** C8.  Each Back callback changes the active step to the key that precedes
    the step's own key in [steps], and nothing else.  The press as a whole,
    with the render that follows it, puts the page on the preceding step and
    keeps the agent, the definition, the tool list, the selected tool ids, the
    saved policy, the loading flag and both forms; the error message is kept
    or, when the effect of the step entered starts a fetch, cleared; the only
    calls it can start are reads.  Back is available on every step but the
    first whenever the page is not loading. *)
Theorem C8_back_changes_only_step (w w' : World)
    (Hback : dispatch ClickBack w = Some w') :
  (forall p : Wizard,
      sameExceptStep p (onBack_tools p)
      /\ previousKey (lit "tools") steps = Some (activeStep (onBack_tools p))
      /\ sameExceptStep p (onBack_policies p)
      /\ previousKey (lit "policies") steps
         = Some (activeStep (onBack_policies p))
      /\ sameExceptStep p (onBack_review p)
      /\ previousKey (lit "review") steps = Some (activeStep (onBack_review p)))
  /\ previousKey (activeStep (page w)) steps = Some (activeStep (page w'))
  /\ keptByBack (page w) (page w')
  /\ (error (page w') = error (page w) \/ error (page w') = emptyLit)
  /\ (exists calls : list Inflight,
        inflight w' = inflight w ++ calls /\ forallb isRead calls = true)
  /\ (forall v : World,
        loading (page v) = false ->
        In (activeStep (page v)) [lit "tools"; lit "policies"; lit "review"] ->
        dispatch ClickBack v <> None).
Proof.
  split.
  { intros p. repeat split. }
  unfold dispatch, backDisabled in Hback.
  destruct (loading (page w)); [discriminate|].
  assert (Hend : forall v : World,
            loading (page v) = false ->
            In (activeStep (page v)) [lit "tools"; lit "policies"; lit "review"] ->
            dispatch ClickBack v <> None).
  { intros v Hidle Hin. unfold dispatch, backDisabled, onStep. rewrite Hidle.
    destruct Hin as [<- | [<- | [<- | []]]]; decide_keys; discriminate. }
  destruct (onStep "tools" w) eqn:H1;
    [|destruct (onStep "policies" w) eqn:H2;
      [|destruct (onStep "review" w) eqn:H3; [|discriminate]]];
    injection Hback as <-;
    match goal with H : onStep _ _ = true |- _ => on_step H; rewrite H end.
  - destruct (@back_press w "metadata") as [Ha [Hb [Hc Hd]]];
      [intros E; vm_compute in E; discriminate|].
    unfold onBack_tools. rewrite Ha. repeat split; try assumption; apply Hb.
  - destruct (@back_press w "tools") as [Ha [Hb [Hc Hd]]];
      [intros E; vm_compute in E; discriminate|].
    unfold onBack_policies. rewrite Ha. repeat split; try assumption; apply Hb.
  - destruct (@back_press w "policies") as [Ha [Hb [Hc Hd]]];
      [intros E; vm_compute in E; discriminate|].
    unfold onBack_review. rewrite Ha. repeat split; try assumption; apply Hb.
Qed.

Lemma C8_back_changes_only_step_witness :
  previousKey (activeStep (page (worldAfter sessionPolicies))) steps
  = Some (activeStep (page (worldAfter (sessionPolicies ++ [ClickBack]))))
  /\ keptByBack (page (worldAfter sessionPolicies))
       (page (worldAfter (sessionPolicies ++ [ClickBack]))).
Proof.
  assert (Hback : dispatch ClickBack (worldAfter sessionPolicies)
                  = Some (worldAfter (sessionPolicies ++ [ClickBack]))).
  { vm_compute. reflexivity. }
  destruct (@C8_back_changes_only_step _ _ Hback) as [_ [Hkey [Hkept _]]].
  split; [exact Hkey | exact Hkept].
Defined.

(** C9.  Without an agent, the submit handlers of the tools and the policies
    steps issue no call: each one only sets the error message, so the active
    step and every other cell keep their values; a click that runs one of them
    changes the page in no other way and leaves the calls in flight as they
    were. *)
Theorem C9_no_agent_no_call (w : Wizard) (Hnone : agent w = None) :
  let msg :=
    lit "Agent not created. Please go back to Metadata step and create the agent first." in
  handleSaveTools w = (setError msg w, None)
  /\ handleSavePolicy w = (setError msg w, None)
  /\ error (setError msg w) = msg
  /\ sameExceptError w (setError msg w)
  /\ (forall v : World,
        page v = w ->
        page (click handleSaveTools v) = setError msg w
        /\ inflight (click handleSaveTools v) = inflight v
        /\ page (click handleSavePolicy v) = setError msg w
        /\ inflight (click handleSavePolicy v) = inflight v).
Proof.
  intros msg.
  assert (Htools : handleSaveTools w = (setError msg w, None)).
  { unfold handleSaveTools. now rewrite Hnone. }
  assert (Hpolicy : handleSavePolicy w = (setError msg w, None)).
  { unfold handleSavePolicy. now rewrite Hnone. }
  split; [exact Htools|]. split; [exact Hpolicy|]. split; [reflexivity|].
  split; [apply setError_frame|].
  intros v <-.
  destruct (click_same_step handleSaveTools v Htools eq_refl) as [H1 H2].
  destruct (click_same_step handleSavePolicy v Hpolicy eq_refl) as [H3 H4].
  simpl in H2, H4. rewrite app_nil_r in H2, H4.
  repeat split; assumption.
Qed.

Lemma C9_no_agent_no_call_witness :
  snd (handleSaveTools (setActiveStep (lit "tools") initialWizard)) = None
  /\ snd (handleSavePolicy (setActiveStep (lit "policies") initialWizard)) = None.
Proof.
  split.
  - rewrite (proj1 (@C9_no_agent_no_call
                      (setActiveStep (lit "tools") initialWizard) eq_refl)).
    reflexivity.
  - rewrite (proj1 (proj2 (@C9_no_agent_no_call
                      (setActiveStep (lit "policies") initialWizard) eq_refl))).
    reflexivity.
Defined.

(** C10, as amended.  A click on Ask issues a question only when a definition
    is loaded, the question is not blank after trimming and the mounted
    harness has no question of its own in flight, and it issues exactly that
    one call; whenever the Ask button is enabled, a definition is loaded, the
    question is not blank and the harness is not loading; and [onAsk] with a
    null agent id returns at once, with no call and the state as it was. *)
Theorem C10_ask_guard (w : World) (Hreach : reachable w) :
  (forall w' : World,
      dispatch ClickAsk w = Some w' ->
      exists (s : ReviewStep.State) (d : AgentDefinition.t),
        review w = Some s /\ agentDefinition (page w) = Some d
        /\ trim (ReviewStep.question s) <> []
        /\ ReviewStep.qaLoading s = false
        /\ List.length (filter (askedBy (mounts w)) (inflight w)) = 0
        /\ inflight w'
           = inflight w
             ++ [mkInflight (Review (mounts w))
                   (askAgent (AgentDefinition.agent_id d)
                      (AgentQARequest.mk (ReviewStep.question s) None))])
  /\ (forall (definition : option AgentDefinition.t) (s : ReviewStep.State),
        ReviewStep.askDisabled (ReviewStep.agentId definition) s = false ->
        definition <> None
        /\ trim (ReviewStep.question s) <> []
        /\ ReviewStep.qaLoading s = false)
  /\ (forall s : ReviewStep.State, ReviewStep.onAsk None s = (s, None)).
Proof.
  pose proof (reachable_Invariant Hreach) as Hinv.
  assert (Hguard :
    forall (definition : option AgentDefinition.t) (s : ReviewStep.State),
      ReviewStep.askDisabled (ReviewStep.agentId definition) s = false ->
      ReviewStep.hasAgentId (ReviewStep.agentId definition) = true
      /\ definition <> None
      /\ trim (ReviewStep.question s) <> []
      /\ ReviewStep.qaLoading s = false).
  { intros definition s Hen. unfold ReviewStep.askDisabled in Hen.
    apply negb_false_iff in Hen. unfold ReviewStep.canAsk in Hen.
    rewrite !andb_true_iff, Nat.ltb_lt, nonempty_length, negb_true_iff in Hen.
    destruct Hen as [[Hid Hq] Hl]. repeat split; try assumption.
    intros ->. discriminate. }
  split; [|split].
  - intros w' Hask. unfold dispatch in Hask.
    destruct (review w) as [s|] eqn:Hr; [|discriminate].
    destruct (agentDefinition (page w)) as [d|] eqn:Hd; [|discriminate].
    destruct (ReviewStep.askDisabled _ s) eqn:Hdis; [discriminate|].
    destruct (Hguard (Some d) s Hdis) as [Hid [_ [Hq Hl]]].
    unfold ReviewStep.onAsk in Hask. simpl ReviewStep.agentId in *.
    rewrite Hid in Hask. injection Hask as <-.
    exists s, d. repeat split; try assumption.
    rewrite (inv_asking Hinv Hr), Hl. reflexivity.
  - intros definition s Hen. destruct (Hguard definition s Hen) as [_ H].
    exact H.
  - reflexivity.
Qed.

Lemma C10_ask_guard_witness :
  exists (s : ReviewStep.State) (d : AgentDefinition.t),
    review (worldAfter sessionQuestion) = Some s
    /\ agentDefinition (page (worldAfter sessionQuestion)) = Some d
    /\ trim (ReviewStep.question s) <> []
    /\ ReviewStep.qaLoading s = false
    /\ List.length
         (filter (askedBy (mounts (worldAfter sessionQuestion)))
            (inflight (worldAfter sessionQuestion))) = 0
    /\ inflight (worldAfter (sessionQuestion ++ [ClickAsk]))
       = inflight (worldAfter sessionQuestion)
         ++ [mkInflight (Review (mounts (worldAfter sessionQuestion)))
               (askAgent (AgentDefinition.agent_id d)
                  (AgentQARequest.mk (ReviewStep.question s) None))].
Proof.
  apply (C10_ask_guard (w := worldAfter sessionQuestion)).
  - apply (reachable_after sessionQuestion). vm_compute. reflexivity.
  - vm_compute. reflexivity.
Defined.

(** C10, as stated, fails after the review step is left and entered again: the
    question asked by the first harness is still in flight, the new harness is
    not loading, and Ask sends the question a second time. *)
Lemma C10_counterexample :
  let w := worldAfter sessionReentered in
  let question :=
    askAgent 7 (AgentQARequest.mk (lit "What is an invoice?") None) in
  run sessionReentered initialWorld = Some w
  /\ map call (inflight w) = [question]
  /\ exists w' : World,
       dispatch ClickAsk w = Some w'
       /\ map call (inflight w') = [question; question].
Proof.
  intros w question. split; [vm_compute; reflexivity|].
  split; [vm_compute; reflexivity|].
  eexists. split; vm_compute; reflexivity.
Qed.

(** * Further properties *)

(** ** Trimming *)

Lemma trimStart_padding (pre s : jsstring) :
  forallb isWhiteSpace pre = true -> trimStart (pre ++ s) = trimStart s.
Proof.
  induction pre as [|c pre IH]; simpl; intros H; [reflexivity|].
  apply andb_true_iff in H. destruct H as [-> H]. now apply IH.
Qed.

Lemma trimStart_blank (s : jsstring) :
  forallb isWhiteSpace s = true -> trimStart s = [].
Proof.
  intros H. rewrite <- (app_nil_r s). now rewrite trimStart_padding.
Qed.

Lemma trimStart_app (s post : jsstring) :
  trimStart s <> [] -> trimStart (s ++ post) = trimStart s ++ post.
Proof.
  induction s as [|c s IH]; simpl; intros H; [congruence|].
  destruct (isWhiteSpace c); [now apply IH | reflexivity].
Qed.

Lemma trimStart_all_blank (s : jsstring) :
  trimStart s = [] -> forallb isWhiteSpace s = true.
Proof.
  induction s as [|c s IH]; simpl; intros H; [reflexivity|].
  destruct (isWhiteSpace c); [now apply IH | discriminate].
Qed.

Lemma trimEnd_padding (s post : jsstring) :
  forallb isWhiteSpace post = true -> trimEnd (s ++ post) = trimEnd s.
Proof.
  intros H. unfold trimEnd. rewrite rev_app_distr, trimStart_padding; [reflexivity|].
  rewrite forallb_forall in *. intros c Hc. apply H. now apply in_rev.
Qed.

Lemma trim_padding (pre s post : jsstring) :
  forallb isWhiteSpace pre = true -> forallb isWhiteSpace post = true ->
  trim (pre ++ s ++ post) = trim s.
Proof.
  intros Hpre Hpost. unfold trim. rewrite trimStart_padding by exact Hpre.
  destruct (trimStart s) as [|c t] eqn:E.
  - rewrite trimStart_blank; [reflexivity|].
    rewrite forallb_app, Hpost, (trimStart_all_blank s E). reflexivity.
  - rewrite trimStart_app by congruence. rewrite E.
    now apply trimEnd_padding.
Qed.

Lemma trimStart_length (s : jsstring) :
  List.length (trimStart s) <= List.length s.
Proof.
  induction s as [|c s IH]; simpl; [lia|].
  destruct (isWhiteSpace c); simpl; lia.
Qed.

Lemma trim_length (s : jsstring) : List.length (trim s) <= List.length s.
Proof.
  unfold trim, trimEnd. rewrite length_rev.
  etransitivity; [apply trimStart_length|]. rewrite length_rev.
  apply trimStart_length.
Qed.

Lemma trim_blank (s : jsstring) :
  forallb isWhiteSpace s = true -> trim s = [].
Proof.
  intros H. unfold trim. now rewrite trimStart_blank.
Qed.

(** X1.  The validity of the metadata form does not see white space around
    its fields, each field with a padding of its own; a valid form has a name
    of at least 1 code unit, a description of at least 10 and a purpose of at
    least 5 as typed; and a name made of white space only is never valid. *)
Theorem isMetadataValid_ignores_padding (form : AgentCreate.t)
    (pre1 post1 pre2 post2 pre3 post3 pre4 post4 : jsstring)
    (Hblank :
       forallb (forallb isWhiteSpace)
         [pre1; post1; pre2; post2; pre3; post3; pre4; post4] = true) :
  isMetadataValid
    (AgentCreate.mk (pre1 ++ AgentCreate.name form ++ post1)
       (pre2 ++ AgentCreate.description form ++ post2)
       (pre3 ++ AgentCreate.purpose form ++ post3)
       (pre4 ++ AgentCreate.model form ++ post4))
  = isMetadataValid form
  /\ (isMetadataValid form = true ->
      1 <= List.length (AgentCreate.name form)
      /\ 10 <= List.length (AgentCreate.description form)
      /\ 5 <= List.length (AgentCreate.purpose form))
  /\ (forallb isWhiteSpace (AgentCreate.name form) = true ->
      isMetadataValid form = false).
Proof.
  simpl in Hblank. rewrite !andb_true_iff in Hblank.
  destruct Hblank as [H1 [H2 [H3 [H4 [H5 [H6 [H7 [H8 _]]]]]]]].
  split; [|split].
  - unfold isMetadataValid. simpl.
    now rewrite !trim_padding by assumption.
  - unfold isMetadataValid.
    rewrite !andb_true_iff, !Nat.ltb_lt, !Nat.leb_le.
    intros [[[Hn Hd] Hp] _].
    pose proof (trim_length (AgentCreate.name form)).
    pose proof (trim_length (AgentCreate.description form)).
    pose proof (trim_length (AgentCreate.purpose form)).
    lia.
  - intros Hname. unfold isMetadataValid. now rewrite (trim_blank _ Hname).
Qed.

Lemma isMetadataValid_ignores_padding_witness :
  isMetadataValid
    (AgentCreate.mk (lit "  " ++ lit "Helper" ++ [])
       ([] ++ lit "Answers questions about invoices" ++ [10%N])
       ([9%N] ++ lit "Billing support" ++ lit " ")
       ([] ++ lit "gpt-4.1-mini" ++ []))
  = isMetadataValid
      (AgentCreate.mk (lit "Helper") (lit "Answers questions about invoices")
         (lit "Billing support") (lit "gpt-4.1-mini")).
Proof.
  refine (proj1 (@isMetadataValid_ignores_padding
                   (AgentCreate.mk (lit "Helper")
                      (lit "Answers questions about invoices")
                      (lit "Billing support") (lit "gpt-4.1-mini"))
                   (lit "  ") [] [] [10%N] [9%N] (lit " ") [] [] _)).
  vm_compute. reflexivity.
Defined.

(** ** The tool check boxes *)

Lemma includes_deselect (ids : list Z) (toolId other : Z) :
  includes (deselectTool ids toolId) other
  = includes ids other && negb (other =? toolId)%Z.
Proof.
  unfold includes, deselectTool. induction ids as [|x ids IH]; simpl; [reflexivity|].
  destruct (Z.eqb_spec x toolId) as [->|Hne]; simpl.
  - rewrite IH. destruct (Z.eqb_spec toolId other) as [->|Hne'].
    + rewrite Z.eqb_refl. simpl. now rewrite andb_false_r.
    + reflexivity.
  - rewrite IH. destruct (Z.eqb_spec x other) as [->|Hne']; simpl; [|reflexivity].
    destruct (Z.eqb_spec other toolId); [congruence | reflexivity].
Qed.

Lemma includes_select (ids : list Z) (toolId other : Z) :
  includes (selectTool ids toolId) other
  = includes ids other || (other =? toolId)%Z.
Proof.
  unfold includes, selectTool. rewrite existsb_app. simpl.
  now rewrite orb_false_r, Z.eqb_sym.
Qed.

(** X2.  A click on a tool's check box flips whether that tool is selected,
    leaves every other tool as it was, and does not introduce a duplicate id;
    nothing else on the page changes and no call is started. *)
Theorem tool_toggle_flips_one (w w' : World) (toolId : Z)
    (Hclick : dispatch (ChangeToolChecked toolId) w = Some w') :
  includes (selectedToolIds (page w')) toolId
  = negb (includes (selectedToolIds (page w)) toolId)
  /\ (forall other : Z,
        other <> toolId ->
        includes (selectedToolIds (page w')) other
        = includes (selectedToolIds (page w)) other)
  /\ (NoDup (selectedToolIds (page w)) -> NoDup (selectedToolIds (page w')))
  /\ page w' = setSelectedToolIds (selectedToolIds (page w')) (page w)
  /\ inflight w' = inflight w.
Proof.
  unfold dispatch in Hclick.
  destruct (onStep "tools" w && _); [|discriminate].
  injection Hclick as <-. unfold withPage, onToolChange. cbn [page inflight].
  simpl selectedToolIds.
  destruct (includes (selectedToolIds (page w)) toolId) eqn:Hin; simpl.
  - split; [|split; [|split; [|split]]]; try reflexivity.
    + rewrite includes_deselect, Z.eqb_refl. now rewrite andb_false_r.
    + intros other Hne. rewrite includes_deselect.
      destruct (Z.eqb_spec other toolId); [congruence|]. now rewrite andb_true_r.
    + intros Hnd. unfold deselectTool. now apply NoDup_filter.
  - split; [|split; [|split; [|split]]]; try reflexivity.
    + rewrite includes_select, Z.eqb_refl. now rewrite orb_true_r.
    + intros other Hne. rewrite includes_select.
      destruct (Z.eqb_spec other toolId); [congruence|]. now rewrite orb_false_r.
    + intros Hnd. unfold selectTool. apply NoDup_app; [exact Hnd | repeat constructor; intros [] |].
      intros x Hx [<- | []].
      apply includes_In in Hx. congruence.
Qed.

Lemma tool_toggle_flips_one_witness :
  includes (selectedToolIds (page (worldAfter (sessionToolsLoaded ++ [ChangeToolChecked 3])))) 3
  = negb (includes (selectedToolIds (page (worldAfter sessionToolsLoaded))) 3).
Proof.
  refine (proj1 (@tool_toggle_flips_one (worldAfter sessionToolsLoaded)
                   (worldAfter (sessionToolsLoaded ++ [ChangeToolChecked 3])) 3 _)).
  vm_compute. reflexivity.
Defined.

(** ** What an event can change *)

Lemma commit_review (agentSet : bool) (p0 : Wizard) (w1 : World) :
  review (commit agentSet p0 w1) = fst (remount (page w1) (review w1) (mounts w1)).
Proof.
  unfold commit. destruct (remount _ _ _). destruct (depsChanged _ _ _).
  - destruct (stepEffect (page w1)). reflexivity.
  - reflexivity.
Qed.

(** The effect starts at most one call, a read for the step entered. *)
Lemma stepEffect_calls (p : Wizard) :
  snd (stepEffect p) = []
  \/ (activeStep p = lit "tools" /\ availableTools p = []
      /\ snd (stepEffect p) = [getTools])
  \/ (activeStep p = lit "policies"
      /\ exists a : Agent.t,
           agent p = Some a /\ snd (stepEffect p) = [getAgentTools (Agent.id a)])
  \/ (activeStep p = lit "review"
      /\ exists a : Agent.t,
           agent p = Some a /\ snd (stepEffect p) = [getDefinition (Agent.id a)]).
Proof.
  unfold stepEffect.
  destruct (activeStep p === lit "tools") eqn:E1;
    destruct (activeStep p === lit "policies") eqn:E2;
    destruct (activeStep p === lit "review") eqn:E3;
    try apply jsstring_eqb_eq in E1; try apply jsstring_eqb_eq in E2;
    try apply jsstring_eqb_eq in E3;
    try (rewrite E1 in E2; vm_compute in E2; discriminate);
    try (rewrite E1 in E3; vm_compute in E3; discriminate);
    try (rewrite E2 in E3; vm_compute in E3; discriminate);
    simpl.
  - destruct (availableTools p) eqn:Ht; simpl; [|now left].
    right; left. repeat split; assumption.
  - destruct (agent p) as [a|] eqn:Ha; simpl; [|now left].
    right; right; left. split; [assumption|]. now exists a.
  - destruct (agent p) as [a|] eqn:Ha; simpl; [|now left].
    right; right; right. split; [assumption|]. now exists a.
  - now left.
Qed.

Lemma stepEffect_at_most_one (p : Wizard) :
  List.length (snd (stepEffect p)) <= 1.
Proof.
  destruct (stepEffect_calls p)
    as [-> | [[_ [_ ->]] | [[_ [a [_ ->]]] | [_ [a [_ ->]]]]]]; simpl; lia.
Qed.

(** The cells a render never writes. *)
Lemma commit_frame (agentSet : bool) (p0 : Wizard) (w1 : World) :
  let p := page (commit agentSet p0 w1) in
  activeStep p = activeStep (page w1)
  /\ agent p = agent (page w1)
  /\ agentDefinition p = agentDefinition (page w1)
  /\ availableTools p = availableTools (page w1)
  /\ selectedToolIds p = selectedToolIds (page w1)
  /\ policy p = policy (page w1)
  /\ metadataForm p = metadataForm (page w1)
  /\ policyForm p = policyForm (page w1).
Proof.
  simpl. rewrite commit_page. destruct (depsChanged _ _ _).
  - pose proof (stepEffect_frame (page w1)) as H. simpl in H. tauto.
  - repeat split.
Qed.

(** The guards of [dispatch] are resolved one event at a time: what is left
    is the state the event leads to. *)
Ltac dispatch_cases H :=
  unfold dispatch in H;
  repeat match type of H with
    | (if ?b then _ else _) = Some _ =>
        let E := fresh "Hguard" in destruct b eqn:E; [|try discriminate H]
    | (if ?b then _ else _) = Some _ =>
        let E := fresh "Hguard" in destruct b eqn:E; [try discriminate H|]
    | match ?x with Some _ => _ | None => _ end = Some _ =>
        let E := fresh "Hsome" in destruct x eqn:E; [|discriminate H]
    | match ?x with Page => _ | Review _ => _ end = Some _ =>
        let E := fresh "Howner" in destruct x eqn:E
    | (let '(_, _) := ?x in _) = Some _ =>
        let E := fresh "Hpair" in destruct x eqn:E
    end;
  try discriminate H.

Lemma settlePage_forms (c : Call) (resp : Response) (p p1 : Wizard) (b : bool) :
  settlePage c resp p = Some (p1, b) ->
  metadataForm p1 = metadataForm p /\ policyForm p1 = policyForm p.
Proof.
  destruct c, resp as [r|r|r|r|r]; simpl; try discriminate;
    intros [= <- <-]; destruct r; split; reflexivity.
Qed.

Lemma click_frame (handler : Wizard -> Wizard * option Call) (w : World) :
  let p1 := fst (handler (page w)) in
  let p := page (click handler w) in
  activeStep p = activeStep p1 /\ agent p = agent p1
  /\ agentDefinition p = agentDefinition p1
  /\ availableTools p = availableTools p1
  /\ selectedToolIds p = selectedToolIds p1 /\ policy p = policy p1
  /\ metadataForm p = metadataForm p1 /\ policyForm p = policyForm p1.
Proof.
  unfold click. destruct (handler (page w)) as [p1 c]. apply commit_frame.
Qed.

Lemma handleSaveTools_forms (p : Wizard) :
  let p1 := fst (handleSaveTools p) in
  activeStep p1 = activeStep p /\ agent p1 = agent p
  /\ agentDefinition p1 = agentDefinition p
  /\ availableTools p1 = availableTools p
  /\ selectedToolIds p1 = selectedToolIds p /\ policy p1 = policy p
  /\ metadataForm p1 = metadataForm p /\ policyForm p1 = policyForm p.
Proof.
  unfold handleSaveTools.
  destruct (agent p) eqn:Ha; simpl; rewrite ?Ha; repeat split.
Qed.

Lemma handleSavePolicy_forms (p : Wizard) :
  let p1 := fst (handleSavePolicy p) in
  activeStep p1 = activeStep p /\ agent p1 = agent p
  /\ agentDefinition p1 = agentDefinition p
  /\ availableTools p1 = availableTools p
  /\ selectedToolIds p1 = selectedToolIds p /\ policy p1 = policy p
  /\ metadataForm p1 = metadataForm p /\ policyForm p1 = policyForm p.
Proof.
  unfold handleSavePolicy.
  destruct (agent p) eqn:Ha; [|simpl; rewrite ?Ha; repeat split].
  destruct (_ && _); [simpl; rewrite ?Ha; repeat split|].
  destruct (match PolicyCreate.frequency_limit _ with Some _ => _ | None => _ end);
    simpl; rewrite ?Ha; repeat split.
Qed.

Ltac use_frame F :=
  let H1 := fresh in let H2 := fresh in let H3 := fresh in let H4 := fresh in
  let H5 := fresh in let H6 := fresh in let H7 := fresh in let H8 := fresh in
  destruct F as [H1 [H2 [H3 [H4 [H5 [H6 [H7 H8]]]]]]];
  rewrite ?H1, ?H2, ?H3, ?H4, ?H5, ?H6, ?H7, ?H8;
  clear H1 H2 H3 H4 H5 H6 H7 H8.

Lemma dispatch_forms (e : Event) (w w' : World) :
  dispatch e w = Some w' ->
  (editsMetadataForm e = false ->
   metadataForm (page w') = metadataForm (page w))
  /\ (editsPolicyForm e = false -> policyForm (page w') = policyForm (page w)).
Proof.
  intros Hstep. destruct e; dispatch_cases Hstep; injection Hstep as <-; simpl;
    (split; intros Hedit; try discriminate Hedit; try reflexivity).
  all: try match goal with
           | Hs : settlePage _ _ _ = Some _ |- _ =>
               destruct (settlePage_forms _ _ _ Hs) as [Hm Hp]
           end.
  all: repeat match goal with
              | |- context [page (click ?h ?v)] => use_frame (click_frame h v)
              | |- context [page (commit ?a ?p0 ?w1)] =>
                  use_frame (commit_frame a p0 w1)
              | |- context [fst (handleSaveTools ?p)] =>
                  use_frame (handleSaveTools_forms p)
              | |- context [fst (handleSavePolicy ?p)] =>
                  use_frame (handleSavePolicy_forms p)
              end.
  all: simpl; try assumption; reflexivity.
Qed.

(** X3.  What the user typed is never lost: the metadata form changes only
    when one of its four fields is edited, and the policy form only when the
    frequency limit or the approval box is edited; no click on Next or Back
    and no response from the backend touches either form. *)
Theorem forms_change_only_by_edits (e : Event) (w w' : World)
    (Hstep : dispatch e w = Some w') :
  (editsMetadataForm e = false ->
   metadataForm (page w') = metadataForm (page w))
  /\ (editsPolicyForm e = false -> policyForm (page w') = policyForm (page w)).
Proof. exact (dispatch_forms e w Hstep). Qed.

Lemma settlePage_records (c : Call) (resp : Response) (p p1 : Wizard) (b : bool) :
  settlePage c resp p = Some (p1, b) ->
  (agent p1 = agent p
   \/ exists a : Agent.t, resp = AgentResponse (Resolved a) /\ agent p1 = Some a)
  /\ (policy p1 = policy p
      \/ exists saved : Policy.t,
           resp = PolicyResponse (Resolved saved) /\ policy p1 = Some saved)
  /\ (agentDefinition p1 = agentDefinition p
      \/ exists d : AgentDefinition.t,
           resp = DefinitionResponse (Resolved d) /\ agentDefinition p1 = Some d)
  /\ (availableTools p1 = availableTools p
      \/ exists tools : list Tool.t,
           resp = ToolsResponse (Resolved tools) /\ availableTools p1 = tools).
Proof.
  destruct c, resp as [r|r|r|r|r]; simpl; try discriminate;
    intros [= <- <-]; destruct r as [data|err]; simpl;
    repeat split; try (left; reflexivity); right; eexists; split; reflexivity.
Qed.

(** X4.  The records that come from the backend are replaced only by the
    backend: the agent held by the page changes only when a [createAgent]
    resolves, the saved policy only when a [setPolicy] resolves, the
    definition only when a [getDefinition] resolves and the list of available
    tools only when a tools call resolves, each time to the data of that
    response; in particular no event ever resets one of them. *)
Theorem records_change_only_on_resolution (e : Event) (w w' : World)
    (Hstep : dispatch e w = Some w') :
  (agent (page w') = agent (page w)
   \/ exists (i : nat) (a : Agent.t),
        e = Settle i (AgentResponse (Resolved a)) /\ agent (page w') = Some a)
  /\ (policy (page w') = policy (page w)
      \/ exists (i : nat) (saved : Policy.t),
           e = Settle i (PolicyResponse (Resolved saved))
           /\ policy (page w') = Some saved)
  /\ (agentDefinition (page w') = agentDefinition (page w)
      \/ exists (i : nat) (d : AgentDefinition.t),
           e = Settle i (DefinitionResponse (Resolved d))
           /\ agentDefinition (page w') = Some d)
  /\ (availableTools (page w') = availableTools (page w)
      \/ exists (i : nat) (tools : list Tool.t),
           e = Settle i (ToolsResponse (Resolved tools))
           /\ availableTools (page w') = tools).
Proof.
  destruct e; dispatch_cases Hstep; injection Hstep as <-; simpl.
  all: try match goal with
           | Hs : settlePage _ _ _ = Some _ |- _ =>
               destruct (settlePage_records _ _ _ Hs) as [Ha [Hp [Hd Ht]]]
           end.
  all: repeat match goal with
              | |- context [page (click ?h ?v)] => use_frame (click_frame h v)
              | |- context [page (commit ?a ?p0 ?w1)] =>
                  use_frame (commit_frame a p0 w1)
              | |- context [fst (handleSaveTools ?p)] =>
                  use_frame (handleSaveTools_forms p)
              | |- context [fst (handleSavePolicy ?p)] =>
                  use_frame (handleSavePolicy_forms p)
              end.
  all: simpl.
  all: try (repeat split; left; first [reflexivity | assumption]).
  repeat split.
  - destruct Ha as [Ha | [a [-> Ha]]]; [now left | right; now exists i, a].
  - destruct Hp as [Hp | [a [-> Hp]]]; [now left | right; now exists i, a].
  - destruct Hd as [Hd | [a [-> Hd]]]; [now left | right; now exists i, a].
  - destruct Ht as [Ht | [a [-> Ht]]]; [now left | right; now exists i, a].
Qed.

Lemma records_change_only_on_resolution_witness :
  agent (page (worldAfter sessionTools)) = agent (page (worldAfter sessionCreating))
  \/ exists (i : nat) (a : Agent.t),
       Settle 0 (AgentResponse (Resolved sampleAgent))
       = Settle i (AgentResponse (Resolved a))
       /\ agent (page (worldAfter sessionTools)) = Some a.
Proof.
  refine (proj1 (@records_change_only_on_resolution
                   (Settle 0 (AgentResponse (Resolved sampleAgent)))
                   (worldAfter sessionCreating) (worldAfter sessionTools) _)).
  vm_compute. reflexivity.
Defined.

Lemma forms_change_only_by_edits_witness :
  metadataForm (page (worldAfter sessionTools))
  = metadataForm (page (worldAfter sessionCreating)).
Proof.
  refine (proj1 (@forms_change_only_by_edits
                   (Settle 0 (AgentResponse (Resolved sampleAgent)))
                   (worldAfter sessionCreating) (worldAfter sessionTools) _) _).
  - vm_compute. reflexivity.
  - reflexivity.
Defined.

(** ** Calls started by an event *)

Lemma removeAt_length {A : Type} (l : list A) (i : nat) (x : A) :
  nth_error l i = Some x -> S (List.length (removeAt i l)) = List.length l.
Proof.
  revert i. induction l as [|y l IH]; intros [|i] H; simpl in H; try discriminate.
  - reflexivity.
  - rewrite removeAt_cons. simpl. f_equal. now apply IH.
Qed.

Lemma handleSaveTools_call (p : Wizard) :
  match snd (handleSaveTools p) with
  | Some (setAgentTools _ _) | None => True
  | _ => False
  end.
Proof. unfold handleSaveTools. destruct (agent p); exact I. Qed.

Lemma handleSavePolicy_call (p : Wizard) :
  match snd (handleSavePolicy p) with
  | Some (setPolicy _ _) | None => True
  | _ => False
  end.
Proof.
  unfold handleSavePolicy. destruct (agent p); [|exact I].
  destruct (_ && _); [exact I|].
  destruct (match PolicyCreate.frequency_limit _ with Some _ => _ | None => _ end);
    exact I.
Qed.

(** A click on Next: the handler's call, if any, and nothing from the
    effect. *)
Lemma click_submit_inflight (handler : Wizard -> Wizard * option Call) (w : World) :
  activeStep (fst (handler (page w))) = activeStep (page w) ->
  inflight (click handler w) = inflight w ++ issued Page (snd (handler (page w))).
Proof.
  intros Hsame.
  destruct (handler (page w)) as [p1 c] eqn:Hh. simpl in Hsame.
  now destruct (click_same_step handler w Hh Hsame).
Qed.

(** A press of Back: only what the effect of the step entered starts. *)
Lemma click_back_inflight (key : jsstring) (w : World) :
  inflight (click (fun p => (setActiveStep key p, None)) w)
  = inflight w
    ++ map (mkInflight Page)
         (if depsChanged false (page w) (setActiveStep key (page w))
          then snd (stepEffect (setActiveStep key (page w))) else []).
Proof.
  unfold click. rewrite commit_inflight. cbn [page inflight issued].
  now rewrite app_nil_r.
Qed.

(** X5.  Every event starts at most one call: a click or an edit adds at most
    one call to those in flight, and a call that settles is replaced by at
    most one new call, so settling never increases the number in flight. *)
Theorem event_starts_at_most_one_call (e : Event) (w w' : World)
    (Hstep : dispatch e w = Some w') :
  List.length (inflight w') <= List.length (inflight w) + 1
  /\ (forall (i : nat) (resp : Response),
        e = Settle i resp -> List.length (inflight w') <= List.length (inflight w)).
Proof.
  destruct e; dispatch_cases Hstep; injection Hstep as <-;
    cbn [withPage inflight];
    (split; [|intros j resp' Heq; try discriminate Heq]); try lia.
  - rewrite click_submit_inflight by reflexivity. rewrite length_app. simpl. lia.
  - rewrite click_submit_inflight by apply (handleSaveTools_forms (page w)).
    rewrite length_app. destruct (snd (handleSaveTools (page w))); simpl; lia.
  - rewrite click_submit_inflight by apply (handleSavePolicy_forms (page w)).
    rewrite length_app. destruct (snd (handleSavePolicy (page w))); simpl; lia.
  - unfold onBack_tools. rewrite click_back_inflight, length_app, length_map.
    destruct (depsChanged _ _ _); [|simpl; lia].
    pose proof (stepEffect_at_most_one (setActiveStep (lit "metadata") (page w))).
    lia.
  - unfold onBack_policies. rewrite click_back_inflight, length_app, length_map.
    destruct (depsChanged _ _ _); [|simpl; lia].
    pose proof (stepEffect_at_most_one (setActiveStep (lit "tools") (page w))).
    lia.
  - unfold onBack_review. rewrite click_back_inflight, length_app, length_map.
    destruct (depsChanged _ _ _); [|simpl; lia].
    pose proof (stepEffect_at_most_one (setActiveStep (lit "policies") (page w))).
    lia.
  - rewrite length_app. unfold ReviewStep.onAsk in Hpair.
    destruct (ReviewStep.agentId _) in Hpair;
      [destruct (ReviewStep.hasAgentId _) in Hpair|];
      injection Hpair as <- <-; simpl; lia.
  - rewrite commit_inflight, length_app, length_map. cbn [inflight page].
    pose proof (removeAt_length _ _ Hsome) as Hlen.
    destruct (depsChanged _ _ _); [|simpl; lia].
    pose proof (stepEffect_at_most_one w0). lia.
  - rewrite commit_inflight, length_app, length_map. cbn [inflight page].
    pose proof (removeAt_length _ _ Hsome) as Hlen.
    destruct (depsChanged _ _ _); [|simpl; lia].
    pose proof (stepEffect_at_most_one w0). lia.
  - pose proof (removeAt_length _ _ Hsome) as Hlen. lia.
  - pose proof (removeAt_length _ _ Hsome) as Hlen. lia.
Qed.

Lemma event_starts_at_most_one_call_witness :
  List.length (inflight (worldAfter sessionTools))
  <= List.length (inflight (worldAfter sessionCreating)).
Proof.
  refine (proj2 (@event_starts_at_most_one_call
                   (Settle 0 (AgentResponse (Resolved sampleAgent)))
                   (worldAfter sessionCreating) (worldAfter sessionTools) _)
            0 (AgentResponse (Resolved sampleAgent)) eq_refl).
  vm_compute. reflexivity.
Defined.

Lemma settlePage_tools (c : Call) (resp : Response) (p p1 : Wizard) (b : bool) :
  settlePage c resp p = Some (p1, b) ->
  availableTools p1 = availableTools p \/ depsChanged b p p1 = false.
Proof.
  destruct c, resp as [r|r|r|r|r]; simpl; try discriminate;
    intros [= <- <-]; destruct r as [data|err]; simpl;
    try (left; reflexivity).
  right. now apply depsChanged_same_step.
Qed.

Lemma effect_starts_no_getTools (p : Wizard) :
  availableTools p <> [] ->
  Forall (fun f => isGetTools f = false)
    (map (mkInflight Page) (snd (stepEffect p))).
Proof.
  intros Hne.
  destruct (stepEffect_calls p)
    as [-> | [[_ [Ht _]] | [[_ [a [_ ->]]] | [_ [a [_ ->]]]]]];
    try contradiction; simpl; repeat constructor.
Qed.

(** X6.  Once a non-empty list of tools is loaded it is not fetched again:
    from a state whose list of available tools is not empty, the calls in
    flight after an event are those it leaves in flight, followed by the calls
    it starts, and none of the calls it starts is a [getTools]. *)
Theorem loaded_tools_are_not_refetched (e : Event) (w w' : World)
    (Hstep : dispatch e w = Some w')
    (Hloaded : availableTools (page w) <> []) :
  exists started : list Inflight,
    inflight w' = remaining e w ++ started
    /\ Forall (fun f => isGetTools f = false) started.
Proof.
  destruct e; dispatch_cases Hstep; injection Hstep as <-;
    cbn [remaining withPage inflight];
    try (exists []; split; [now rewrite app_nil_r | constructor]).
  - rewrite click_submit_inflight by reflexivity.
    eexists. split; [reflexivity|]. repeat constructor.
  - rewrite click_submit_inflight by apply (handleSaveTools_forms (page w)).
    eexists. split; [reflexivity|].
    pose proof (handleSaveTools_call (page w)) as Hc.
    destruct (snd (handleSaveTools (page w))) as [[]|]; simpl;
      try contradiction; repeat constructor.
  - rewrite click_submit_inflight by apply (handleSavePolicy_forms (page w)).
    eexists. split; [reflexivity|].
    pose proof (handleSavePolicy_call (page w)) as Hc.
    destruct (snd (handleSavePolicy (page w))) as [[]|]; simpl;
      try contradiction; repeat constructor.
  - unfold onBack_tools. rewrite click_back_inflight.
    eexists. split; [reflexivity|].
    destruct (depsChanged _ _ _); [|constructor].
    now apply effect_starts_no_getTools.
  - unfold onBack_policies. rewrite click_back_inflight.
    eexists. split; [reflexivity|].
    destruct (depsChanged _ _ _); [|constructor].
    now apply effect_starts_no_getTools.
  - unfold onBack_review. rewrite click_back_inflight.
    eexists. split; [reflexivity|].
    destruct (depsChanged _ _ _); [|constructor].
    now apply effect_starts_no_getTools.
  - eexists. split; [reflexivity|].
    unfold ReviewStep.onAsk in Hpair.
    destruct (ReviewStep.agentId _) in Hpair;
      [destruct (ReviewStep.hasAgentId _) in Hpair|];
      injection Hpair as <- <-; simpl; repeat constructor.
  - rewrite commit_inflight. cbn [inflight page].
    eexists. split; [reflexivity|].
    destruct (settlePage_tools _ _ _ Hsome0) as [Hsame | ->]; [|constructor].
    destruct (depsChanged _ _ _); [|constructor].
    apply effect_starts_no_getTools. rewrite Hsame. exact Hloaded.
Qed.

Lemma loaded_tools_are_not_refetched_witness :
  exists started : list Inflight,
    inflight (worldAfter (sessionPolicies ++ [ClickBack]))
    = remaining ClickBack (worldAfter sessionPolicies) ++ started
    /\ Forall (fun f => isGetTools f = false) started.
Proof.
  refine (@loaded_tools_are_not_refetched ClickBack
            (worldAfter sessionPolicies)
            (worldAfter (sessionPolicies ++ [ClickBack])) _ _).
  - vm_compute. reflexivity.
  - vm_compute. discriminate.
Defined.

(** ** What is sent and what is shown *)

Lemma wellFormed_same_agent (p p' : Wizard) (f : Inflight) :
  agent p' = agent p -> wellFormedCall p f -> wellFormedCall p' f.
Proof.
  unfold wellFormedCall, usesAgent. intros ->. trivial.
Qed.

Lemma Forall_wellFormed_same_agent (p p' : Wizard) (fl : list Inflight) :
  agent p' = agent p ->
  Forall (wellFormedCall p) fl -> Forall (wellFormedCall p') fl.
Proof.
  intros Ha H. eapply Forall_impl; [|exact H].
  intros f. now apply wellFormed_same_agent.
Qed.

Lemma Forall_wellFormed_idle (p p' : Wizard) (fl : list Inflight) :
  List.length (filter guardedByLoading fl) = 0 ->
  Forall (wellFormedCall p) fl -> Forall (wellFormedCall p') fl.
Proof.
  induction fl as [|f fl IH]; simpl; intros Hidle H; [constructor|].
  inversion H as [|? ? Hf Hfl]; subst.
  unfold guardedByLoading in Hidle at 1.
  constructor.
  - unfold wellFormedCall in *. destruct (call f); simpl in Hidle;
      try discriminate; exact Hf.
  - apply IH; [|exact Hfl].
    destruct (raisesLoading (call f)); simpl in Hidle; [discriminate | exact Hidle].
Qed.

Lemma settledHarness_initial : settledHarness ReviewStep.initial.
Proof. split; [now left | intros H; discriminate]. Qed.

Lemma Safe_commit (agentSet : bool) (p0 p1 : Wizard)
    (r : option ReviewStep.State) (m : nat) (fl : list Inflight) :
  Forall (wellFormedCall p1) fl ->
  (activeStep p1 = lit "review" -> policy p1 <> None) ->
  (forall s, r = Some s -> settledHarness s) ->
  Safe (commit agentSet p0 (mkWorld p1 r m fl)).
Proof.
  intros Hcalls Hpolicy Hqa.
  destruct (commit_frame agentSet p0 (mkWorld p1 r m fl))
    as [Hstep [Hagent [_ [_ [_ [Hpol _]]]]]].
  cbn [page] in Hstep, Hagent, Hpol.
  constructor.
  - rewrite commit_inflight. cbn [page inflight]. apply Forall_app. split.
    + eapply Forall_wellFormed_same_agent; [exact Hagent | exact Hcalls].
    + destruct (depsChanged _ _ _); [|constructor].
      destruct (stepEffect_calls p1)
        as [-> | [[_ [_ ->]] | [[_ [a [Ha ->]]] | [_ [a [Ha ->]]]]]];
        simpl; repeat constructor.
      unfold wellFormedCall, usesAgent. simpl. exists a. rewrite Hagent. now split.
  - rewrite Hstep, Hpol. exact Hpolicy.
  - rewrite commit_review. cbn [page review mounts]. unfold remount.
    destruct (activeStep p1 === lit "review"); [|discriminate].
    destruct r as [s0|]; simpl; intros s [= <-].
    + now apply Hqa.
    + apply settledHarness_initial.
Qed.

Lemma Safe_withPage (p1 : Wizard) (w : World) :
  Safe w ->
  activeStep p1 = activeStep (page w) ->
  agent p1 = agent (page w) ->
  policy p1 = policy (page w) ->
  Safe (withPage p1 w).
Proof.
  intros [H1 H2 H3] Hstep Hagent Hpol.
  constructor; unfold withPage; cbn [page review inflight].
  - eapply Forall_wellFormed_same_agent; [exact Hagent | exact H1].
  - now rewrite Hstep, Hpol.
  - exact H3.
Qed.

Lemma Safe_click (handler : Wizard -> Wizard * option Call) (w : World)
    (p1 : Wizard) (c : option Call) :
  Safe w ->
  handler (page w) = (p1, c) ->
  agent p1 = agent (page w) ->
  policy p1 = policy (page w) ->
  (activeStep p1 = lit "review" -> activeStep (page w) = lit "review") ->
  match c with
  | Some k => wellFormedCall p1 (mkInflight Page k)
  | None => True
  end ->
  Safe (click handler w).
Proof.
  intros [H1 H2 H3] Hrun Hagent Hpol Hstep Hcall.
  unfold click. rewrite Hrun. apply Safe_commit.
  - apply Forall_app. split.
    + eapply Forall_wellFormed_same_agent; [exact Hagent | exact H1].
    + destruct c; simpl; repeat constructor. exact Hcall.
  - intros Hr. rewrite Hpol. apply H2. now apply Hstep.
  - exact H3.
Qed.

Lemma handleSavePolicy_sends (p p1 : Wizard) (k : Call) :
  handleSavePolicy p = (p1, Some k) ->
  exists a : Agent.t,
    agent p = Some a /\ k = setPolicy (Agent.id a) (policyForm p)
    /\ positiveOrAbsent (PolicyCreate.frequency_limit (policyForm p))
    /\ (PolicyCreate.require_approval_for_all_tool_calls (policyForm p) = true ->
        selectedToolIds p <> []).
Proof.
  unfold handleSavePolicy. destruct (agent p) as [a|]; [|discriminate].
  destruct (PolicyCreate.require_approval_for_all_tool_calls (policyForm p)
            && (List.length (selectedToolIds p) =? 0)) eqn:Hwarn; [discriminate|].
  destruct (PolicyCreate.frequency_limit (policyForm p)) as [limit|] eqn:Hl.
  - destruct (Qle_bool limit 0) eqn:Hle; [discriminate|].
    intros [= <- <-]. exists a. repeat split.
    + simpl. apply Qnot_le_lt. intros H. apply Qle_bool_iff in H. congruence.
    + intros Happ. rewrite Happ in Hwarn. simpl in Hwarn.
      destruct (selectedToolIds p); [discriminate | congruence].
  - intros [= <- <-]. exists a. repeat split.
    intros Happ. rewrite Happ in Hwarn. simpl in Hwarn.
    destruct (selectedToolIds p); [discriminate | congruence].
Qed.

Theorem Safe_dispatch (e : Event) (w w' : World) :
  Invariant w -> Safe w -> dispatch e w = Some w' -> Safe w'.
Proof.
  intros Hinv Hsafe Hstep. pose proof Hsafe as [S1 S2 S3].
  destruct e.
  - dispatch_cases Hstep. injection Hstep as <-. now apply Safe_withPage.
  - dispatch_cases Hstep. injection Hstep as <-. now apply Safe_withPage.
  - dispatch_cases Hstep. injection Hstep as <-. now apply Safe_withPage.
  - dispatch_cases Hstep. injection Hstep as <-. now apply Safe_withPage.
  - (* Next on the metadata step *)
    dispatch_cases Hstep. injection Hstep as <-.
    apply andb_true_iff in Hguard. destruct Hguard as [Hon Hen].
    on_step Hon. unfold MetadataStep_nextDisabled in Hen.
    apply negb_true_iff, orb_false_iff in Hen. destruct Hen as [Hvalid _].
    apply negb_false_iff in Hvalid.
    eapply Safe_click; [exact Hsafe | reflexivity | reflexivity | reflexivity | |].
    + simpl. rewrite Hon. intros H. vm_compute in H. discriminate.
    + exact Hvalid.
  - dispatch_cases Hstep. injection Hstep as <-. now apply Safe_withPage.
  - (* Next on the tools step *)
    dispatch_cases Hstep. injection Hstep as <-.
    apply andb_true_iff in Hguard. destruct Hguard as [Hon _]. on_step Hon.
    destruct (agent (page w)) as [a|] eqn:Ha.
    + eapply Safe_click;
        [exact Hsafe | unfold handleSaveTools; rewrite Ha; reflexivity | ..];
        simpl; try assumption; try reflexivity.
      * rewrite Hon. intros H. vm_compute in H. discriminate.
      * unfold wellFormedCall, usesAgent. simpl. now exists a.
    + eapply Safe_click;
        [exact Hsafe | unfold handleSaveTools; rewrite Ha; reflexivity | ..];
        simpl; try assumption; try reflexivity.
      rewrite Hon. intros H. vm_compute in H. discriminate.
  - dispatch_cases Hstep. injection Hstep as <-. now apply Safe_withPage.
  - dispatch_cases Hstep. injection Hstep as <-. now apply Safe_withPage.
  - (* Next on the policies step *)
    dispatch_cases Hstep. injection Hstep as <-.
    apply andb_true_iff in Hguard. destruct Hguard as [Hon _]. on_step Hon.
    destruct (handleSavePolicy (page w)) as [p1 c] eqn:Hh.
    pose proof (handleSavePolicy_forms (page w)) as Hf. rewrite Hh in Hf.
    simpl in Hf. destruct Hf as [Hf1 [Hf2 [_ [_ [_ [Hf6 _]]]]]].
    eapply Safe_click; [exact Hsafe | exact Hh | exact Hf2 | exact Hf6 | |].
    + rewrite Hf1, Hon. intros H. vm_compute in H. discriminate.
    + destruct c as [k|]; [|exact I].
      destruct (handleSavePolicy_sends _ Hh) as [a [Ha [-> [Hpos _]]]].
      unfold wellFormedCall, usesAgent. simpl. split; [|exact Hpos].
      exists a. rewrite Hf2. now split.
  - (* Back *)
    dispatch_cases Hstep; injection Hstep as <-;
      (eapply Safe_click; [exact Hsafe | reflexivity | reflexivity | reflexivity | | exact I]);
      simpl; intros H; vm_compute in H; discriminate.
  - (* the question is edited *)
    dispatch_cases Hstep. injection Hstep as <-.
    constructor; cbn [page review inflight]; try assumption.
    intros s' [= <-]. split; [now left | intros _; now split].
  - (* Ask *)
    dispatch_cases Hstep. injection Hstep as <-.
    unfold ReviewStep.askDisabled in Hguard. apply negb_false_iff in Hguard.
    unfold ReviewStep.canAsk in Hguard.
    rewrite !andb_true_iff, Nat.ltb_lt, nonempty_length in Hguard.
    destruct Hguard as [[Hid Hq] _].
    unfold ReviewStep.onAsk in Hpair. simpl ReviewStep.agentId in *.
    rewrite Hid in Hpair. injection Hpair as <- <-.
    constructor; cbn [page review inflight]; try assumption.
    + apply Forall_app. split; [exact S1|]. repeat constructor.
      * simpl. intros H0. simpl in Hid. rewrite H0 in Hid. discriminate.
      * exact Hq.
    + intros s' [= <-]. split; [now left | intros _; now split].
  - (* a call settles *)
    dispatch_cases Hstep; injection Hstep as <-.
    + (* of the page *)
      rename Hsome into Hnth. rename Hsome0 into Hsettle.
      assert (Hrest := Forall_removeAt i S1).
      assert (Hguarded : guardedByLoading i0 = true ->
                List.length (filter guardedByLoading (removeAt i (inflight w))) = 0).
      { intros Hg. now apply (loading_of_guarded (page w) _ i (inv_loading Hinv) Hnth). }
      unfold guardedByLoading in Hguarded.
      destruct (call i0) eqn:Hc; destruct resp as [r|r|r|r|r];
        simpl in Hsettle; try discriminate; injection Hsettle as <- <-;
        destruct r as [data|err]; apply Safe_commit;
        try exact S3;
        try (eapply Forall_wellFormed_same_agent; [reflexivity | exact Hrest]);
        try (simpl; exact S2);
        try (simpl; intros _; discriminate);
        try (simpl; intros H; vm_compute in H; discriminate).
      eapply Forall_wellFormed_idle; [apply Hguarded; reflexivity | exact Hrest].
    + (* of a review step *)
      rename Hsome into Hnth. rename Hsome0 into Hsettle.
      unfold settleReview in Hsettle.
      destruct (call i0) eqn:Hc; try discriminate.
      destruct resp as [?|?|?|?|res]; try discriminate.
      injection Hsettle as <-.
      constructor; cbn [page review inflight]; try assumption.
      * now apply Forall_removeAt.
      * intros s Hs. destruct (review w) as [s0|] eqn:Hr; [|discriminate].
        destruct (Nat.eqb_spec instance (mounts w)) as [->|Hne];
          injection Hs as <-; [|now apply S3].
        pose proof (inv_asking Hinv Hr) as Hcount.
        rewrite (filter_length_removeAt (askedBy (mounts w)) _ i Hnth) in Hcount.
        unfold askedBy in Hcount at 2. rewrite Howner, Nat.eqb_refl in Hcount.
        destruct (ReviewStep.qaLoading s0) eqn:Hl; [|lia].
        destruct (S3 s0 eq_refl) as [_ Hnone]. destruct (Hnone Hl) as [Ha He].
        destruct res as [data|err]; simpl; unfold settledHarness; simpl;
          rewrite ?Ha, ?He; (split; [auto | intros H; discriminate]).
Qed.

Lemma Safe_initial : Safe initialWorld.
Proof.
  constructor; simpl.
  - constructor.
  - intros H. vm_compute in H. discriminate.
  - discriminate.
Qed.

Lemma Safe_run (events : list Event) (w w' : World) :
  Invariant w -> Safe w -> run events w = Some w' -> Safe w'.
Proof.
  revert w. induction events as [|e events IH]; simpl; intros w Hinv Hsafe Hrun.
  - now injection Hrun as <-.
  - destruct (dispatch e w) as [w1|] eqn:He; [|discriminate].
    apply (IH w1); [| |exact Hrun].
    + eapply Invariant_dispatch; eassumption.
    + eapply Safe_dispatch; eassumption.
Qed.

Theorem reachable_Safe (w : World) : reachable w -> Safe w.
Proof.
  intros [events Hrun].
  eapply Safe_run; [apply Invariant_initial | apply Safe_initial | exact Hrun].
Qed.

Lemma inflight_wellFormed (w : World) (f : Inflight) :
  reachable w -> In f (inflight w) -> wellFormedCall (page w) f.
Proof.
  intros Hreach Hin.
  pose proof (safe_calls (reachable_Safe Hreach)) as H.
  rewrite Forall_forall in H. now apply H.
Qed.

(** X7.  [createAgent] is only ever called with a form that passes the
    validity predicate: every [createAgent] in flight carries a payload whose
    trimmed name is non-empty, trimmed description has at least 10 code units,
    trimmed purpose at least 5 and trimmed model is non-empty. *)
Theorem created_agents_are_valid (w : World) (f : Inflight)
    (payload : AgentCreate.t)
    (Hreach : reachable w) (Hin : In f (inflight w))
    (Hcall : call f = createAgent payload) :
  isMetadataValid payload = true
  /\ trim (AgentCreate.name payload) <> []
  /\ 10 <= List.length (trim (AgentCreate.description payload))
  /\ 5 <= List.length (trim (AgentCreate.purpose payload))
  /\ trim (AgentCreate.model payload) <> [].
Proof.
  pose proof (inflight_wellFormed f Hreach Hin) as H.
  unfold wellFormedCall in H. rewrite Hcall in H. split; [exact H|].
  unfold isMetadataValid in H.
  rewrite !andb_true_iff, !Nat.ltb_lt, !Nat.leb_le, !nonempty_length in H.
  tauto.
Qed.

Lemma created_agents_are_valid_witness :
  isMetadataValid
    (AgentCreate.mk (lit "Helper") (lit "Answers questions about invoices")
       (lit "Billing support") (lit "gpt-4.1-mini")) = true.
Proof.
  refine (proj1 (@created_agents_are_valid (worldAfter sessionCreating)
                   (mkInflight Page
                      (createAgent
                         (AgentCreate.mk (lit "Helper")
                            (lit "Answers questions about invoices")
                            (lit "Billing support") (lit "gpt-4.1-mini"))))
                   _ _ _ eq_refl)).
  - apply (reachable_after sessionCreating). vm_compute. reflexivity.
  - vm_compute. left. reflexivity.
Defined.

(** X8.  The page never sends a policy with a frequency limit that is zero or
    negative: every [setPolicy] in flight carries an absent or a positive
    limit, and it is sent for the agent the page holds. *)
Theorem sent_policies_have_positive_limit (w : World) (f : Inflight)
    (agentId : Z) (payload : PolicyCreate.t)
    (Hreach : reachable w) (Hin : In f (inflight w))
    (Hcall : call f = setPolicy agentId payload) :
  positiveOrAbsent (PolicyCreate.frequency_limit payload)
  /\ usesAgent (page w) agentId.
Proof.
  pose proof (inflight_wellFormed f Hreach Hin) as H.
  unfold wellFormedCall in H. rewrite Hcall in H. tauto.
Qed.

Lemma sent_policies_have_positive_limit_witness :
  positiveOrAbsent (PolicyCreate.frequency_limit (PolicyCreate.mk None false))
  /\ usesAgent (page (worldAfter sessionSavingPolicy)) 7.
Proof.
  refine (@sent_policies_have_positive_limit (worldAfter sessionSavingPolicy)
            (mkInflight Page (setPolicy 7 (PolicyCreate.mk None false)))
            7%Z (PolicyCreate.mk None false) _ _ eq_refl).
  - apply (reachable_after sessionSavingPolicy). vm_compute. reflexivity.
  - vm_compute. left. reflexivity.
Defined.

(** X9.  The calls that save the tool selection and fetch the definition are
    made for the agent the page holds while they are in flight: the agent
    cannot be replaced before they settle. *)
Theorem guarded_calls_use_current_agent (w : World) (f : Inflight)
    (Hreach : reachable w) (Hin : In f (inflight w)) :
  (forall (agentId : Z) (toolIds : list Z),
      call f = setAgentTools agentId toolIds -> usesAgent (page w) agentId)
  /\ (forall agentId : Z,
        call f = getDefinition agentId -> usesAgent (page w) agentId).
Proof.
  pose proof (inflight_wellFormed f Hreach Hin) as H.
  unfold wellFormedCall in H.
  split; intros; match goal with Hc : call _ = _ |- _ => rewrite Hc in H end;
    exact H.
Qed.

Lemma guarded_calls_use_current_agent_witness :
  usesAgent (page (worldAfter sessionSavingTools)) 7.
Proof.
  refine (proj1 (@guarded_calls_use_current_agent
                   (worldAfter sessionSavingTools)
                   (mkInflight Page (setAgentTools 7 [3%Z])) _ _)
            7%Z [3%Z] eq_refl).
  - apply (reachable_after sessionSavingTools). vm_compute. reflexivity.
  - vm_compute. left. reflexivity.
Defined.

(** X10.  A question is only ever sent with a text that is not blank and for
    an agent id other than 0. *)
Theorem asked_questions_are_not_blank (w : World) (f : Inflight)
    (agentId : Z) (payload : AgentQARequest.t)
    (Hreach : reachable w) (Hin : In f (inflight w))
    (Hcall : call f = askAgent agentId payload) :
  agentId <> 0%Z /\ trim (AgentQARequest.question payload) <> [].
Proof.
  pose proof (inflight_wellFormed f Hreach Hin) as H.
  unfold wellFormedCall in H. now rewrite Hcall in H.
Qed.

Lemma asked_questions_are_not_blank_witness :
  7%Z <> 0%Z /\ trim (lit "What is an invoice?") <> [].
Proof.
  refine (@asked_questions_are_not_blank (worldAfter sessionAsking)
            (mkInflight (Review 1)
               (askAgent 7 (AgentQARequest.mk (lit "What is an invoice?") None)))
            7%Z (AgentQARequest.mk (lit "What is an invoice?") None) _ _ eq_refl).
  - apply (reachable_after sessionAsking). vm_compute. reflexivity.
  - vm_compute. left. reflexivity.
Defined.

(** X11.  The review step is only shown for an agent that exists and whose
    policy has been saved. *)
Theorem review_shows_a_saved_policy (w : World)
    (Hreach : reachable w) (Hreview : activeStep (page w) = lit "review") :
  agent (page w) <> None /\ policy (page w) <> None.
Proof.
  split.
  - apply (inv_agent (reachable_Invariant Hreach)). rewrite Hreview.
    intros H. vm_compute in H. discriminate.
  - now apply (safe_policy (reachable_Safe Hreach)).
Qed.

Lemma review_shows_a_saved_policy_witness :
  agent (page (worldAfter sessionReview)) <> None
  /\ policy (page (worldAfter sessionReview)) <> None.
Proof.
  apply review_shows_a_saved_policy.
  - apply (reachable_after sessionReview). vm_compute. reflexivity.
  - vm_compute. reflexivity.
Defined.

Lemma asked_by_mounted (m : nat) (fl : list Inflight) (f : Inflight) :
  In f fl -> owner f = Review m ->
  0 < List.length (filter (askedBy m) fl).
Proof.
  intros Hin Hown.
  assert (Hf : In f (filter (askedBy m) fl)).
  { apply filter_In. split; [exact Hin|].
    unfold askedBy. rewrite Hown. apply Nat.eqb_refl. }
  destruct (filter (askedBy m) fl); [contradiction | simpl; lia].
Qed.

(** X12.  The harness never shows an answer and an error together, and it
    shows neither while it is loading, which it is whenever a question that
    the mounted harness started itself is in flight. *)
Theorem harness_shows_answer_or_error (w : World) (s : ReviewStep.State)
    (Hreach : reachable w) (Hmounted : review w = Some s) :
  (ReviewStep.answer s = None \/ ReviewStep.qaError s = None)
  /\ (ReviewStep.qaLoading s = true ->
      ReviewStep.answer s = None /\ ReviewStep.qaError s = None)
  /\ (forall f : Inflight,
        In f (inflight w) -> owner f = Review (mounts w) ->
        ReviewStep.qaLoading s = true
        /\ ReviewStep.answer s = None /\ ReviewStep.qaError s = None).
Proof.
  destruct (safe_harness (reachable_Safe Hreach) Hmounted) as [Hone Hnone].
  split; [exact Hone|]. split; [exact Hnone|].
  intros f Hin Hown.
  pose proof (inv_asking (reachable_Invariant Hreach) Hmounted) as Hcount.
  pose proof (asked_by_mounted _ _ Hin Hown) as Hpos.
  destruct (ReviewStep.qaLoading s); [|lia].
  split; [reflexivity | now apply Hnone].
Qed.

Lemma harness_shows_answer_or_error_witness :
  ReviewStep.answer (ReviewStep.mk (lit "What is an invoice?") None None true)
  = None
  /\ ReviewStep.qaError (ReviewStep.mk (lit "What is an invoice?") None None true)
     = None.
Proof.
  refine (proj1 (proj2 (@harness_shows_answer_or_error (worldAfter sessionAsking)
                   (ReviewStep.mk (lit "What is an invoice?") None None true) _ _))
            eq_refl).
  - apply (reachable_after sessionAsking). vm_compute. reflexivity.
  - vm_compute. reflexivity.
Defined.

(** ** Navigation *)

Lemma settlePage_step (c : Call) (resp : Response) (p p1 : Wizard) (b : bool) :
  settlePage c resp p = Some (p1, b) ->
  activeStep p1 = activeStep p
  \/ (resolved resp = true
      /\ ((exists payload, c = createAgent payload) /\ activeStep p1 = lit "tools"
          \/ (exists agentId toolIds, c = setAgentTools agentId toolIds)
             /\ activeStep p1 = lit "policies"
          \/ (exists agentId payload, c = setPolicy agentId payload)
             /\ activeStep p1 = lit "review")).
Proof.
  destruct c, resp as [r|r|r|r|r]; simpl; try discriminate;
    intros [= <- <-]; destruct r as [data|err]; simpl;
    try (left; reflexivity); right; (split; [reflexivity|]).
  - left. split; [now eexists | reflexivity].
  - right; left. split; [now do 2 eexists | reflexivity].
  - right; right. split; [now do 2 eexists | reflexivity].
Qed.

(** X13.  The wizard moves one step at a time: an event leaves the active
    step as it is, or moves it to the next key of [steps], which only a
    resolved call does, or to the previous key, which only Back does. *)
Theorem navigation_is_linear (e : Event) (w w' : World)
    (Hreach : reachable w) (Hstep : dispatch e w = Some w') :
  activeStep (page w') = activeStep (page w)
  \/ (nextKey (activeStep (page w)) steps = Some (activeStep (page w'))
      /\ exists (i : nat) (resp : Response),
           e = Settle i resp /\ resolved resp = true)
  \/ (previousKey (activeStep (page w)) steps = Some (activeStep (page w'))
      /\ e = ClickBack).
Proof.
  pose proof (reachable_Invariant Hreach) as Hinv.
  destruct e; dispatch_cases Hstep; injection Hstep as <-; simpl.
  all: try (left; reflexivity).
  all: try match goal with
           | |- context [page (click ?h ?v)] => use_frame (click_frame h v)
           | |- context [page (commit ?a ?p0 ?w1)] =>
               use_frame (commit_frame a p0 w1)
           end.
  all: try (left; reflexivity).
  - left. apply (handleSaveTools_forms (page w)).
  - left. apply (handleSavePolicy_forms (page w)).
  - right; right. on_step Hguard0. simpl. rewrite Hguard0. split; reflexivity.
  - right; right. on_step Hguard1. simpl. rewrite Hguard1. split; reflexivity.
  - right; right. on_step Hguard2. simpl. rewrite Hguard2. split; reflexivity.
  - simpl. pose proof (Forall_nth_error _ (inv_pinned Hinv) Hsome) as Hpin.
    unfold pinned in Hpin.
    destruct (settlePage_step _ _ _ Hsome0)
      as [Hsame | [Hres [[[? Hc] ->] | [[[? [? Hc]] ->] | [[? [? Hc]] ->]]]]];
      [now left | | |]; rewrite Hc in Hpin; rewrite Hpin;
      right; left; (split; [reflexivity | now exists i, resp]).
Qed.

Lemma navigation_is_linear_witness :
  activeStep (page (worldAfter sessionTools))
  = activeStep (page (worldAfter sessionCreating))
  \/ (nextKey (activeStep (page (worldAfter sessionCreating))) steps
      = Some (activeStep (page (worldAfter sessionTools)))
      /\ exists (i : nat) (resp : Response),
           Settle 0 (AgentResponse (Resolved sampleAgent)) = Settle i resp
           /\ resolved resp = true)
  \/ (previousKey (activeStep (page (worldAfter sessionCreating))) steps
      = Some (activeStep (page (worldAfter sessionTools)))
      /\ Settle 0 (AgentResponse (Resolved sampleAgent)) = ClickBack).
Proof.
  apply navigation_is_linear.
  - apply (reachable_after sessionCreating). vm_compute. reflexivity.
  - vm_compute. reflexivity.
Defined.

(** X14.  The page always shows exactly one step, and the stepper marks
    exactly one step as active. *)
Theorem exactly_one_step_is_shown (w : World) (Hreach : reachable w) :
  List.length (filter (fun shown => shown) (renderedSteps (activeStep (page w))))
  = 1
  /\ List.length
       (filter (fun active => active)
          (Stepper_isActive steps (activeStep (page w))))
     = 1.
Proof.
  destruct (activeStep_cases _ (inv_step (reachable_Invariant Hreach)))
    as [-> | [-> | [-> | ->]]]; vm_compute; split; reflexivity.
Qed.

Lemma exactly_one_step_is_shown_witness :
  List.length
    (filter (fun shown => shown)
       (renderedSteps (activeStep (page (worldAfter sessionPolicies)))))
  = 1.
Proof.
  refine (proj1 (@exactly_one_step_is_shown (worldAfter sessionPolicies) _)).
  apply (reachable_after sessionPolicies). vm_compute. reflexivity.
Defined.

(** ** Failure and retry *)

Lemma filter_nonempty_nth {A : Type} (P : A -> bool) (l : list A) :
  0 < List.length (filter P l) ->
  exists (i : nat) (x : A), nth_error l i = Some x /\ P x = true.
Proof.
  induction l as [|y l IH]; simpl; [lia|].
  destruct (P y) eqn:E.
  - intros _. now exists 0, y.
  - intros H. destruct (IH H) as [i [x [Hn Hx]]]. now exists (S i), x.
Qed.

Lemma settlePage_rejection (c : Call) (err : ApiError) (p : Wizard) :
  raisesLoading c = true ->
  exists p1 : Wizard,
    settlePage c (rejection c err) p = Some (p1, false)
    /\ activeStep p1 = activeStep p /\ loading p1 = false
    /\ metadataForm p1 = metadataForm p.
Proof.
  destruct c; simpl; try discriminate; intros _; eexists;
    (split; [reflexivity|]); repeat split.
Qed.

(** X15.  The buttons are never disabled for good: whenever the page is
    loading, a call that raised the flag is in flight, and if the backend
    rejects it the page stays on its step with the flag cleared and that call
    gone, so that Next can be clicked again on the tools and policies steps,
    and on the metadata step whenever the form is still valid. *)
Theorem failure_reenables_next (w : World)
    (Hreach : reachable w) (Hbusy : loading (page w) = true) :
  exists (i : nat) (f : Inflight),
    nth_error (inflight w) i = Some f
    /\ raisesLoading (call f) = true
    /\ forall err : ApiError,
         exists w' : World,
           dispatch (Settle i (rejection (call f) err)) w = Some w'
           /\ loading (page w') = false
           /\ activeStep (page w') = activeStep (page w)
           /\ inflight w' = removeAt i (inflight w)
           /\ (activeStep (page w) = lit "tools" ->
               dispatch ClickNextPolicies w' <> None)
           /\ (activeStep (page w) = lit "policies" ->
               dispatch ClickNextReview w' <> None)
           /\ (activeStep (page w) = lit "metadata" ->
               isMetadataValid (metadataForm (page w)) = true ->
               dispatch ClickNextTools w' <> None).
Proof.
  pose proof (reachable_Invariant Hreach) as Hinv.
  pose proof (inv_loading Hinv) as Hcount. rewrite Hbusy in Hcount.
  destruct (filter_nonempty_nth guardedByLoading (inflight w)) as [i [f [Hnth Hg]]];
    [lia|].
  exists i, f. split; [exact Hnth|]. split; [exact Hg|]. intros err.
  destruct (settlePage_rejection (call f) err (page w) Hg)
    as [p1 [Hsettle [Hsame [Hidle Hform]]]].
  destruct (@submit_settles w i f (rejection (call f) err) p1 false
              Hinv Hnth Hg Hsettle)
    as [w' [Hstep [_ Hpage]]].
  specialize (Hpage (depsChanged_same_step _ _ Hsame)).
  exists w'. split; [exact Hstep|]. rewrite Hpage.
  split; [exact Hidle|]. split; [exact Hsame|]. split.
  - unfold dispatch in Hstep. rewrite Hnth in Hstep.
    assert (Hown := Forall_nth_error _ (inv_owned Hinv) Hnth).
    unfold wellOwned in Hown. unfold guardedByLoading in Hg.
    destruct (owner f); [|destruct (call f); try contradiction; discriminate].
    rewrite Hsettle in Hstep. injection Hstep as <-.
    rewrite commit_inflight. cbn [page inflight].
    rewrite (depsChanged_same_step _ _ Hsame). simpl. now rewrite app_nil_r.
  - unfold dispatch, onStep, ToolsStep_nextDisabled, PolicyStep_nextDisabled,
      MetadataStep_nextDisabled.
    rewrite Hpage, Hsame, Hidle, Hform.
    repeat split; intros ->; decide_keys; simpl; try discriminate.
    intros ->. discriminate.
Qed.

Lemma failure_reenables_next_witness :
  exists (i : nat) (f : Inflight),
    nth_error (inflight (worldAfter sessionSavingTools)) i = Some f
    /\ raisesLoading (call f) = true
    /\ forall err : ApiError,
         exists w' : World,
           dispatch (Settle i (rejection (call f) err))
             (worldAfter sessionSavingTools) = Some w'
           /\ loading (page w') = false
           /\ activeStep (page w')
              = activeStep (page (worldAfter sessionSavingTools))
           /\ inflight w' = removeAt i (inflight (worldAfter sessionSavingTools))
           /\ (activeStep (page (worldAfter sessionSavingTools)) = lit "tools" ->
               dispatch ClickNextPolicies w' <> None)
           /\ (activeStep (page (worldAfter sessionSavingTools)) = lit "policies" ->
               dispatch ClickNextReview w' <> None)
           /\ (activeStep (page (worldAfter sessionSavingTools)) = lit "metadata" ->
               isMetadataValid
                 (metadataForm (page (worldAfter sessionSavingTools))) = true ->
               dispatch ClickNextTools w' <> None).
Proof.
  apply failure_reenables_next.
  - apply (reachable_after sessionSavingTools). vm_compute. reflexivity.
  - vm_compute. reflexivity.
Defined.

(** X16.  A question in flight always gets its outcome shown: while the
    harness is loading, its question is in flight, and however the call
    settles the harness stops loading with the question as typed and shows
    the answer of the response, or else an error, on an unchanged page. *)
Theorem harness_question_settles (w : World) (s : ReviewStep.State)
    (Hreach : reachable w) (Hmounted : review w = Some s)
    (Hasking : ReviewStep.qaLoading s = true) :
  exists (i : nat) (f : Inflight),
    nth_error (inflight w) i = Some f
    /\ owner f = Review (mounts w)
    /\ forall r : Result AgentQAResponse.t,
         exists (w' : World) (s' : ReviewStep.State),
           dispatch (Settle i (QAResponse r)) w = Some w'
           /\ review w' = Some s'
           /\ page w' = page w
           /\ ReviewStep.qaLoading s' = false
           /\ ReviewStep.question s' = ReviewStep.question s
           /\ match r with
              | Resolved res =>
                  ReviewStep.answer s'
                  = Some (AgentQAResponse.answer res ?? emptyLit)
                  /\ ReviewStep.qaError s' = None
              | Rejected err =>
                  ReviewStep.answer s' = None /\ ReviewStep.qaError s' <> None
              end.
Proof.
  pose proof (reachable_Invariant Hreach) as Hinv.
  pose proof (inv_asking Hinv Hmounted) as Hcount. rewrite Hasking in Hcount.
  destruct (filter_nonempty_nth (askedBy (mounts w)) (inflight w))
    as [i [f [Hnth Hby]]]; [lia|].
  assert (Hown := Forall_nth_error _ (inv_owned Hinv) Hnth).
  unfold askedBy in Hby. unfold wellOwned in Hown.
  destruct (owner f) as [|k] eqn:Hk; [discriminate|].
  apply Nat.eqb_eq in Hby. subst k.
  destruct (call f) eqn:Hc; try contradiction.
  destruct (safe_harness (reachable_Safe Hreach) Hmounted) as [_ Hnone].
  destruct (Hnone Hasking) as [Ha He].
  exists i, f. split; [exact Hnth|]. split; [exact Hk|]. intros r.
  exists (mkWorld (page w) (Some (ReviewStep.onAsk_settled r s)) (mounts w)
            (removeAt i (inflight w))),
    (ReviewStep.onAsk_settled r s).
  split.
  - unfold dispatch. rewrite Hnth, Hk. unfold settleReview.
    now rewrite Hc, Hmounted, Nat.eqb_refl.
  - split; [reflexivity|]. split; [reflexivity|]. split; [reflexivity|].
    split; [destruct r; reflexivity|].
    destruct r as [res|err]; simpl; [now split | split; [exact Ha | discriminate]].
Qed.

Lemma harness_question_settles_witness :
  exists (i : nat) (f : Inflight),
    nth_error (inflight (worldAfter sessionAsking)) i = Some f
    /\ owner f = Review (mounts (worldAfter sessionAsking))
    /\ forall r : Result AgentQAResponse.t,
         exists (w' : World) (s' : ReviewStep.State),
           dispatch (Settle i (QAResponse r)) (worldAfter sessionAsking) = Some w'
           /\ review w' = Some s'
           /\ page w' = page (worldAfter sessionAsking)
           /\ ReviewStep.qaLoading s' = false
           /\ ReviewStep.question s' = lit "What is an invoice?"
           /\ match r with
              | Resolved res =>
                  ReviewStep.answer s'
                  = Some (AgentQAResponse.answer res ?? emptyLit)
                  /\ ReviewStep.qaError s' = None
              | Rejected err =>
                  ReviewStep.answer s' = None /\ ReviewStep.qaError s' <> None
              end.
Proof.
  refine (@harness_question_settles (worldAfter sessionAsking)
            (ReviewStep.mk (lit "What is an invoice?") None None true) _ _ _).
  - apply (reachable_after sessionAsking). vm_compute. reflexivity.
  - vm_compute. reflexivity.
  - reflexivity.
Defined.

(** X17.  A click on Next never does nothing silently: either it starts
    exactly one call, with the loading flag raised and the banner cleared, or
    it starts none, leaves the loading flag alone and shows an error. *)
Theorem next_sends_or_explains (e : Event) (w w' : World)
    (Hnext : e = ClickNextTools \/ e = ClickNextPolicies \/ e = ClickNextReview)
    (Hstep : dispatch e w = Some w') :
  (exists c : Call,
      inflight w' = inflight w ++ [mkInflight Page c]
      /\ raisesLoading c = true
      /\ loading (page w') = true
      /\ errorBanner (error (page w')) = None)
  \/ (inflight w' = inflight w
      /\ loading (page w') = loading (page w)
      /\ errorBanner (error (page w')) <> None).
Proof.
  destruct Hnext as [-> | [-> | ->]]; dispatch_cases Hstep; injection Hstep as <-.
  - left. exists (createAgent (metadataForm (page w))).
    destruct (click_same_step handleCreateAgent w eq_refl eq_refl) as [Hp Hi].
    rewrite Hp, Hi. repeat split.
  - destruct (handleSaveTools (page w)) as [p1 c] eqn:Hh.
    pose proof (handleSaveTools_forms (page w)) as Hf. rewrite Hh in Hf.
    simpl in Hf. destruct Hf as [Hf1 _].
    destruct (click_same_step handleSaveTools w Hh Hf1) as [Hp Hi].
    rewrite Hp, Hi. unfold handleSaveTools in Hh.
    destruct (agent (page w)) as [a|]; injection Hh as <- <-; simpl.
    + left. eexists. repeat split.
    + right. rewrite app_nil_r. repeat split. discriminate.
  - destruct (handleSavePolicy (page w)) as [p1 c] eqn:Hh.
    pose proof (handleSavePolicy_forms (page w)) as Hf. rewrite Hh in Hf.
    simpl in Hf. destruct Hf as [Hf1 _].
    destruct (click_same_step handleSavePolicy w Hh Hf1) as [Hp Hi].
    rewrite Hp, Hi. unfold handleSavePolicy in Hh.
    destruct (agent (page w)) as [a|];
      [destruct (_ && _) in Hh;
       [|destruct (match PolicyCreate.frequency_limit _ with Some _ => _ | None => _ end) in Hh]|];
      injection Hh as <- <-; simpl.
    + right. rewrite app_nil_r. repeat split. discriminate.
    + right. rewrite app_nil_r. repeat split. discriminate.
    + left. eexists. repeat split.
    + right. rewrite app_nil_r. repeat split. discriminate.
Qed.

Lemma next_sends_or_explains_witness :
  (exists c : Call,
      inflight (worldAfter sessionSavingPolicy)
      = inflight (worldAfter sessionPolicies) ++ [mkInflight Page c]
      /\ raisesLoading c = true
      /\ loading (page (worldAfter sessionSavingPolicy)) = true
      /\ errorBanner (error (page (worldAfter sessionSavingPolicy))) = None)
  \/ (inflight (worldAfter sessionSavingPolicy)
      = inflight (worldAfter sessionPolicies)
      /\ loading (page (worldAfter sessionSavingPolicy))
         = loading (page (worldAfter sessionPolicies))
      /\ errorBanner (error (page (worldAfter sessionSavingPolicy))) <> None).
Proof.
  refine (@next_sends_or_explains ClickNextReview (worldAfter sessionPolicies)
            (worldAfter sessionSavingPolicy) _ _).
  - right; right. reflexivity.
  - vm_compute. reflexivity.
Defined.

(** ** The model select box *)

Lemma effect_offersModel (p : Wizard) :
  Forall offersModel (map (mkInflight Page) (snd (stepEffect p))).
Proof.
  destruct (stepEffect_calls p)
    as [-> | [[_ [_ ->]] | [[_ [a [_ ->]]] | [_ [a [_ ->]]]]]];
    simpl; repeat constructor.
Qed.

Lemma ModelOffered_dispatch (e : Event) (w w' : World) :
  ModelOffered w -> dispatch e w = Some w' -> ModelOffered w'.
Proof.
  intros [Hform Hcalls] Hstep.
  assert (Hkeep : editsMetadataForm e = false ->
            In (AgentCreate.model (metadataForm (page w'))) models).
  { intros Hedit.
    now rewrite (proj1 (dispatch_forms e w Hstep) Hedit). }
  destruct e; dispatch_cases Hstep; injection Hstep as <-;
    (split; [try (apply Hkeep; reflexivity)|]);
    cbn [withPage page inflight]; try assumption.
  - apply andb_true_iff in Hguard. destruct Hguard as [_ Hin].
    apply existsb_exists in Hin. destruct Hin as [m [Hm Heq]].
    apply jsstring_eqb_eq in Heq. simpl. now subst.
  - rewrite click_submit_inflight by reflexivity.
    apply Forall_app. split; [exact Hcalls|].
    constructor; [exact Hform | constructor].
  - rewrite click_submit_inflight by apply (handleSaveTools_forms (page w)).
    apply Forall_app. split; [exact Hcalls|].
    pose proof (handleSaveTools_call (page w)) as Hc.
    destruct (snd (handleSaveTools (page w))) as [[]|]; simpl;
      try contradiction; repeat constructor.
  - rewrite click_submit_inflight by apply (handleSavePolicy_forms (page w)).
    apply Forall_app. split; [exact Hcalls|].
    pose proof (handleSavePolicy_call (page w)) as Hc.
    destruct (snd (handleSavePolicy (page w))) as [[]|]; simpl;
      try contradiction; repeat constructor.
  - unfold onBack_tools. rewrite click_back_inflight.
    apply Forall_app. split; [exact Hcalls|].
    destruct (depsChanged _ _ _); [apply effect_offersModel | constructor].
  - unfold onBack_policies. rewrite click_back_inflight.
    apply Forall_app. split; [exact Hcalls|].
    destruct (depsChanged _ _ _); [apply effect_offersModel | constructor].
  - unfold onBack_review. rewrite click_back_inflight.
    apply Forall_app. split; [exact Hcalls|].
    destruct (depsChanged _ _ _); [apply effect_offersModel | constructor].
  - apply Forall_app. split; [exact Hcalls|].
    unfold ReviewStep.onAsk in Hpair.
    destruct (ReviewStep.agentId _) in Hpair;
      [destruct (ReviewStep.hasAgentId _) in Hpair|];
      injection Hpair as <- <-; simpl; repeat constructor.
  - rewrite commit_inflight. cbn [page inflight].
    apply Forall_app. split; [now apply Forall_removeAt|].
    destruct (depsChanged _ _ _); [apply effect_offersModel | constructor].
  - now apply Forall_removeAt.
Qed.

Lemma ModelOffered_run (events : list Event) (w w' : World) :
  ModelOffered w -> run events w = Some w' -> ModelOffered w'.
Proof.
  revert w. induction events as [|e events IH]; simpl; intros w Hm Hrun.
  - now injection Hrun as <-.
  - destruct (dispatch e w) as [w1|] eqn:He; [|discriminate].
    apply (IH w1); [|exact Hrun]. eapply ModelOffered_dispatch; eassumption.
Qed.

(** X18.  The model of the metadata form is always one of the three models
    the select box offers, and so is the model of every [createAgent] the
    page sends. *)
Theorem model_is_one_of_the_offered (w : World) (Hreach : reachable w) :
  In (AgentCreate.model (metadataForm (page w))) models
  /\ (forall (f : Inflight) (payload : AgentCreate.t),
        In f (inflight w) -> call f = createAgent payload ->
        In (AgentCreate.model payload) models).
Proof.
  destruct Hreach as [events Hrun].
  assert (Hinit : ModelOffered initialWorld).
  { split; [left; reflexivity | constructor]. }
  destruct (ModelOffered_run events Hinit Hrun) as [Hform Hcalls].
  split; [exact Hform|]. intros f payload Hin Hcall.
  rewrite Forall_forall in Hcalls. specialize (Hcalls f Hin).
  unfold offersModel in Hcalls. now rewrite Hcall in Hcalls.
Qed.

Lemma model_is_one_of_the_offered_witness :
  In (AgentCreate.model (metadataForm (page (worldAfter sessionCreating)))) models.
Proof.
  refine (proj1 (@model_is_one_of_the_offered (worldAfter sessionCreating) _)).
  apply (reachable_after sessionCreating). vm_compute. reflexivity.
Defined.
